(** * SciptCityblender: a procedural city generator for a 3D host application

    Shallow embedding of [practicaPython/SciptCityblender.py] and
    verification of its documented properties.

    Conventions of the embedding.
    - Python floats are read as real numbers ([R]); [math.sin], [math.cos]
      and [math.radians] are the real functions.  Not-a-number, infinities
      and rounding are outside this model.
    - The module-level parameters of the script are the fields of [config].
    - The host application's scene ([bpy.data], [bpy.context]) is the record
      [world]; every function of the script is a function from worlds to
      worlds.  The host operators the script calls ([primitive_grid_add],
      [select_by_type], [delete], ...) are modelled in [Module Host] from the
      host's documented behaviour.  The operators that select work on the
      objects of the view layer that are visible and selectable; [objects]
      is the whole of [bpy.data.objects].
    - [random.random()] is a stream of unit samples with a cursor kept in
      the world. *)

From Stdlib Require Import Reals Lra Lia List Bool Arith String Ascii.
From Stdlib Require Import DecimalString Decimal.
Import ListNotations.

Local Open Scope R_scope.

(** ** Script parameters (lines 9-20) *)

Record config := {
  grid_size : R;
  x_subdivisions : nat;
  y_subdivisions : nat;
  terrain_height_scale : R;
  terrain_wave_frequency : R;
  building_min_height : R;
  building_max_height : R;
  street_width_factor : R;
  building_embed_depth : R
}.

(** The values written in the script. *)
Definition default_config : config := {|
  grid_size := 20;
  x_subdivisions := 20;
  y_subdivisions := 30;
  terrain_height_scale := 0;
  terrain_wave_frequency := 0;
  building_min_height := 1;
  building_max_height := 7;
  street_width_factor := 5 / 10;
  building_embed_depth := 1 / 10
|}.

(** ** Vectors *)

Record vec3 := Vec3 { vx : R; vy : R; vz : R }.

Definition vec3_zero : vec3 := Vec3 0 0 0.

Definition vec3_add (a b : vec3) : vec3 :=
  Vec3 (vx a + vx b) (vy a + vy b) (vz a + vz b).

Definition set_z (v : vec3) (z : R) : vec3 := Vec3 (vx v) (vy v) z.

(** ** Height field (body of the loop of [create_terrain], lines 85-92) *)

Definition terrain_z (cfg : config) (co : vec3) : R :=
  let offset_x := vx co * terrain_wave_frequency cfg in
  let offset_y := vy co * terrain_wave_frequency cfg in
  let z1 := sin offset_x in
  let z2 := cos offset_y in
  let z3 := sin (offset_x * (1 / 2) + 1) in
  let z4 := cos (offset_y * (1 / 2)) in
  (z1 * z2 + z3 * z4) * terrain_height_scale cfg / 2.

Definition displace (cfg : config) (co : vec3) : vec3 :=
  set_z co (terrain_z cfg co).

(** The height formula as the specification words it, for frequency [f]
    and scale [s]. *)
Definition spec_height (f s x y : R) : R :=
  s / 2 * (sin (x * f) * cos (y * f) + sin (x * f * (1 / 2) + 1) * cos (y * f * (1 / 2))).

Lemma terrain_z_spec (cfg : config) (co : vec3) :
  terrain_z cfg co =
  spec_height (terrain_wave_frequency cfg) (terrain_height_scale cfg) (vx co) (vy co).
Proof. unfold terrain_z, spec_height. cbv zeta. field. Qed.

(** ** The host's scene data *)

(** [obj.type].  [OTHER] stands for every type the script does not name
    and whose data is not empty: curve, surface, text, metaball, lattice and
    so on. *)
Inductive object_type := MESH | LIGHT | CAMERA | EMPTY | ARMATURE | OTHER.

Definition object_type_eqb (a b : object_type) : bool :=
  match a, b with
  | MESH, MESH | LIGHT, LIGHT | CAMERA, CAMERA | EMPTY, EMPTY
  | ARMATURE, ARMATURE | OTHER, OTHER => true
  | _, _ => false
  end.

Lemma object_type_eqb_eq (a b : object_type) :
  object_type_eqb a b = true <-> a = b.
Proof. destruct a, b; simpl; split; congruence. Qed.

(** A mesh: its vertices and its material slots (materials by name). *)
Record mesh := Mesh { vertices : list vec3; mesh_materials : list string }.

(** [obj.data]; an empty has none.  Lights and cameras refer to their data
    block by name.  Light, camera and armature data have no [materials];
    the data of the other types has a list of material slots (curve,
    surface, text, metaball) or has none (lattice), which [OtherData]
    records. *)
Inductive object_data :=
| MeshData (m : mesh)
| LightData (l : string)
| CameraData (c : string)
| ArmatureData
| OtherData (slots : option (list string))
| NoData.

(** A collection an object can be linked to: the scene's master collection
    or a collection of [bpy.data.collections], by name. *)
Inductive coll_ref := SceneCollection | Named (n : string).

Definition coll_ref_eqb (a b : coll_ref) : bool :=
  match a, b with
  | SceneCollection, SceneCollection => true
  | Named n, Named m => String.eqb n m
  | _, _ => false
  end.

Inductive object_mode := OBJECT | EDIT | SCULPT.

(** An object of [bpy.data.objects].  [select] is its selection in the view
    layer.  [hidden] says that the operators working on the visible,
    selectable objects cannot reach it because of visibility or
    selectability flags, its own ([hide_viewport], [hide_select],
    [hide_set]) or those of the collections that hold it; the script never
    changes these flags. *)
Record object := Object {
  ob_id : nat;
  ob_name : string;
  ob_data : object_data;
  location : vec3;
  rotation_euler : vec3;
  dimensions : vec3;
  select : bool;
  users_collection : list coll_ref;
  hidden : bool
}.

(** [obj.type] is decided by the kind of data. *)
Definition ob_type (o : object) : object_type :=
  match ob_data o with
  | MeshData _ => MESH
  | LightData _ => LIGHT
  | CameraData _ => CAMERA
  | ArmatureData => ARMATURE
  | OtherData _ => OTHER
  | NoData => EMPTY
  end.

Definition is_type (t : object_type) (o : object) : bool :=
  object_type_eqb (ob_type o) t.

(** A collection of [bpy.data.collections].  Its objects are the objects
    whose [users_collection] names it; [coll_other_users] counts the users
    that are not parent collections (fake user, instancers). *)
Record collection := Collection {
  coll_name : string;
  coll_children : list string;
  coll_other_users : nat
}.

Record light := Light { light_name : string; energy : R; angle : R }.

Record camera := Camera { camera_name : string }.

Record principled := Principled {
  base_color : R * R * R * R;
  roughness : R;
  metallic : R
}.

(** A material; [bsdf] is the node called 'Principled BSDF' of its node
    tree, when it has one. *)
Record material := Material {
  mat_name : string;
  use_nodes : bool;
  bsdf : option principled
}.

Record render_settings := Render {
  engine : string;
  cycles_device : string;
  cycles_samples : nat;
  adaptive_min_samples : option nat;
  use_denoising : bool
}.

(** [bpy.data] and [bpy.context] together with the script's console
    output and the position in the random stream. *)
Record world := World {
  objects : list object;
  collections : list collection;
  scene_children : list string;
  lights : list light;
  cameras : list camera;
  materials : list material;
  scene_camera : option nat;
  render : render_settings;
  active_object : option nat;
  mode : object_mode;
  next_id : nat;
  rng : nat;
  console : list string;
  active_collection : coll_ref
}.

(** What the script cannot decide: whether the GPU device is accepted,
    whether this host version has [adaptive_min_samples], and the samples
    [random.random()] returns. *)
Inductive gpu_status := GpuAccepted | GpuIgnored | GpuError (e : string).

Record host_env := {
  gpu : gpu_status;
  has_adaptive_min_samples : bool;
  rnd : nat -> R
}.

(** Field updates. *)
Definition set_objects (f : list object -> list object) (w : world) : world :=
  World (f (objects w)) (collections w) (scene_children w) (lights w) (cameras w)
    (materials w) (scene_camera w) (render w) (active_object w) (mode w)
    (next_id w) (rng w) (console w) (active_collection w).

Definition set_collections (f : list collection -> list collection) (w : world) : world :=
  World (objects w) (f (collections w)) (scene_children w) (lights w) (cameras w)
    (materials w) (scene_camera w) (render w) (active_object w) (mode w)
    (next_id w) (rng w) (console w) (active_collection w).

Definition set_scene_children (f : list string -> list string) (w : world) : world :=
  World (objects w) (collections w) (f (scene_children w)) (lights w) (cameras w)
    (materials w) (scene_camera w) (render w) (active_object w) (mode w)
    (next_id w) (rng w) (console w) (active_collection w).

Definition set_lights (f : list light -> list light) (w : world) : world :=
  World (objects w) (collections w) (scene_children w) (f (lights w)) (cameras w)
    (materials w) (scene_camera w) (render w) (active_object w) (mode w)
    (next_id w) (rng w) (console w) (active_collection w).

Definition set_cameras (f : list camera -> list camera) (w : world) : world :=
  World (objects w) (collections w) (scene_children w) (lights w) (f (cameras w))
    (materials w) (scene_camera w) (render w) (active_object w) (mode w)
    (next_id w) (rng w) (console w) (active_collection w).

Definition set_materials (f : list material -> list material) (w : world) : world :=
  World (objects w) (collections w) (scene_children w) (lights w) (cameras w)
    (f (materials w)) (scene_camera w) (render w) (active_object w) (mode w)
    (next_id w) (rng w) (console w) (active_collection w).

Definition set_scene_camera (c : option nat) (w : world) : world :=
  World (objects w) (collections w) (scene_children w) (lights w) (cameras w)
    (materials w) c (render w) (active_object w) (mode w)
    (next_id w) (rng w) (console w) (active_collection w).

Definition set_render (f : render_settings -> render_settings) (w : world) : world :=
  World (objects w) (collections w) (scene_children w) (lights w) (cameras w)
    (materials w) (scene_camera w) (f (render w)) (active_object w) (mode w)
    (next_id w) (rng w) (console w) (active_collection w).

Definition set_active_object (a : option nat) (w : world) : world :=
  World (objects w) (collections w) (scene_children w) (lights w) (cameras w)
    (materials w) (scene_camera w) (render w) a (mode w)
    (next_id w) (rng w) (console w) (active_collection w).

Definition set_mode (m : object_mode) (w : world) : world :=
  World (objects w) (collections w) (scene_children w) (lights w) (cameras w)
    (materials w) (scene_camera w) (render w) (active_object w) m
    (next_id w) (rng w) (console w) (active_collection w).

Definition set_next_id (n : nat) (w : world) : world :=
  World (objects w) (collections w) (scene_children w) (lights w) (cameras w)
    (materials w) (scene_camera w) (render w) (active_object w) (mode w)
    n (rng w) (console w) (active_collection w).

Definition set_rng (n : nat) (w : world) : world :=
  World (objects w) (collections w) (scene_children w) (lights w) (cameras w)
    (materials w) (scene_camera w) (render w) (active_object w) (mode w)
    (next_id w) n (console w) (active_collection w).

(** [print(msg)] *)
Definition print (msg : string) (w : world) : world :=
  World (objects w) (collections w) (scene_children w) (lights w) (cameras w)
    (materials w) (scene_camera w) (render w) (active_object w) (mode w)
    (next_id w) (rng w) (console w ++ [msg]) (active_collection w).

Definition set_active_collection (c : coll_ref) (w : world) : world :=
  World (objects w) (collections w) (scene_children w) (lights w) (cameras w)
    (materials w) (scene_camera w) (render w) (active_object w) (mode w)
    (next_id w) (rng w) (console w) c.

(** Updates of one object. *)
Definition set_select (b : bool) (o : object) : object :=
  Object (ob_id o) (ob_name o) (ob_data o) (location o) (rotation_euler o)
    (dimensions o) b (users_collection o) (hidden o).

Definition set_name (n : string) (o : object) : object :=
  Object (ob_id o) n (ob_data o) (location o) (rotation_euler o)
    (dimensions o) (select o) (users_collection o) (hidden o).

Definition set_data (d : object_data) (o : object) : object :=
  Object (ob_id o) (ob_name o) d (location o) (rotation_euler o)
    (dimensions o) (select o) (users_collection o) (hidden o).

Definition set_location (l : vec3) (o : object) : object :=
  Object (ob_id o) (ob_name o) (ob_data o) l (rotation_euler o)
    (dimensions o) (select o) (users_collection o) (hidden o).

Definition set_rotation_euler (r : vec3) (o : object) : object :=
  Object (ob_id o) (ob_name o) (ob_data o) (location o) r
    (dimensions o) (select o) (users_collection o) (hidden o).

Definition set_dimensions (d : vec3) (o : object) : object :=
  Object (ob_id o) (ob_name o) (ob_data o) (location o) (rotation_euler o)
    d (select o) (users_collection o) (hidden o).

Definition set_users_collection (f : list coll_ref -> list coll_ref) (o : object) : object :=
  Object (ob_id o) (ob_name o) (ob_data o) (location o) (rotation_euler o)
    (dimensions o) (select o) (f (users_collection o)) (hidden o).

Definition update_object (id : nat) (f : object -> object) (w : world) : world :=
  set_objects (map (fun o => if Nat.eqb (ob_id o) id then f o else o)) w.

Definition get_object (w : world) (id : nat) : option object :=
  find (fun o => Nat.eqb (ob_id o) id) (objects w).

(** ** The host operators the script calls *)

Module Host.

Definition mem_string (s : string) (l : list string) : bool :=
  existsb (String.eqb s) l.

Definition mem_nat (n : nat) (l : list nat) : bool :=
  existsb (Nat.eqb n) l.

(** [f"{n:03d}"] *)
Definition pad3 (n : nat) : string :=
  let s := NilEmpty.string_of_uint (Nat.to_uint n) in
  String.append (String.concat "" (repeat "0"%string (3 - String.length s))) s.

(** Names of data blocks are unique: a requested name already in use gets
    the first free numeric suffix. *)
Definition suffixed (base : string) (k : nat) : string :=
  String.append base (String.append "." (pad3 k)).

Definition unique_name (used : list string) (base : string) : string :=
  if mem_string base used then
    match find (fun k => negb (mem_string (suffixed base k) used))
               (seq 1 (S (List.length used))) with
    | Some k => suffixed base k
    | None => base
    end
  else base.

Definition object_names (w : world) : list string := map ob_name (objects w).

(** [obj.name = n] *)
Definition rename_object (id : nat) (n : string) (w : world) : world :=
  let others :=
    map ob_name (filter (fun o => negb (Nat.eqb (ob_id o) id)) (objects w)) in
  update_object id (set_name (unique_name others n)) w.

(** [bpy.ops.object.select_all(action='DESELECT')].  The host keeps no
    selection on an object that is not visible and selectable, so after the
    call no object of [bpy.data.objects] is selected. *)
Definition select_all_deselect (w : world) : world :=
  set_objects (map (set_select false)) w.

(** Whether the collection named [n] is part of the scene: a child of the
    scene collection, or a child of a collection that is.  A chain of
    parents without repetition is no longer than the list of collections,
    which bounds the search. *)
Fixpoint linked_to_scene (w : world) (fuel : nat) (n : string) : bool :=
  mem_string n (scene_children w)
  || match fuel with
     | O => false
     | S fuel' =>
         existsb (fun p => mem_string n (coll_children p)
                           && linked_to_scene w fuel' (coll_name p))
                 (collections w)
     end.

Definition in_scene (w : world) (c : coll_ref) : bool :=
  match c with
  | SceneCollection => true
  | Named n => linked_to_scene w (List.length (collections w)) n
  end.

(** An object is in the view layer when a collection of the scene holds
    it. *)
Definition in_view_layer (w : world) (o : object) : bool :=
  existsb (in_scene w) (users_collection o).

(** The objects the selection operators work on: in the view layer,
    visible and selectable. *)
Definition reachable (w : world) (o : object) : bool :=
  negb (hidden o) && in_view_layer w o.

(** [bpy.ops.object.select_by_type(type=t)]: the selection becomes exactly
    the objects of type [t] that the operator reaches. *)
Definition select_by_type (t : object_type) (w : world) : world :=
  set_objects (map (fun o => set_select (reachable w o && is_type t o) o)) w.

(** [bpy.context.selected_objects] *)
Definition selected_objects (w : world) : list object :=
  filter select (objects w).

(** The identity of a new object: never that of an object of the scene,
    nor one handed out before. *)
Definition fresh_id (w : world) : nat :=
  Nat.max (next_id w) (S (list_max (map ob_id (objects w)))).

(** [bpy.ops.object.delete()]: the selected objects leave the scene and
    [bpy.data.objects]; their data blocks stay, and their identities are
    not handed out again. *)
Definition delete (w : world) : world :=
  let gone := map ob_id (selected_objects w) in
  let forget (r : option nat) :=
    match r with
    | Some i => if mem_nat i gone then None else Some i
    | None => None
    end in
  set_scene_camera (forget (scene_camera w))
    (set_active_object (forget (active_object w))
       (set_objects (filter (fun o => negb (select o)))
          (set_next_id (fresh_id w) w))).

Definition mode_set_poll (w : world) : bool :=
  match active_object w with Some _ => true | None => false end.

Definition mode_set (m : object_mode) (w : world) : world := set_mode m w.

(** A primitive operator adds a mesh object at [loc]: it takes a fresh id
    and a unique name, is linked to the active collection, and becomes the
    only selected object and the active one. *)
Definition primitive_add (base : string) (m : mesh) (loc dims : vec3)
    (w : world) : nat * world :=
  let id := fresh_id w in
  let o := Object id (unique_name (object_names w) base) (MeshData m) loc
             vec3_zero dims true [active_collection w] false in
  (id,
   set_mode OBJECT
     (set_active_object (Some id)
        (set_next_id (S id)
           (set_objects (fun os => map (set_select false) os ++ [o]) w)))).

(** Coordinate of grid line [i] out of [n] segments over an extent [size]
    centred at the origin. *)
Definition grid_coord (n : nat) (size : R) (i : nat) : R :=
  (2 * INR i / INR n - 1) * (size / 2).

Definition grid_vertices (nx ny : nat) (size : R) : list vec3 :=
  flat_map
    (fun j => map (fun i => Vec3 (grid_coord nx size i) (grid_coord ny size j) 0)
                  (seq 0 (S nx)))
    (seq 0 (S ny)).

(** [bpy.ops.mesh.primitive_grid_add]: a flat grid of [xs] by [ys] cells.
    The operator clamps its arguments to their ranges: at least one
    subdivision per axis, a size of at least zero. *)
Definition primitive_grid_add (xs ys : nat) (size : R) (loc : vec3)
    (w : world) : nat * world :=
  let nx := Nat.max 1 xs in
  let ny := Nat.max 1 ys in
  let sz := Rmax 0 size in
  primitive_add "Grid" (Mesh (grid_vertices nx ny sz) []) loc (Vec3 sz sz 0) w.

Definition cube_vertices (size : R) : list vec3 :=
  let h := size / 2 in
  [Vec3 (- h) (- h) (- h); Vec3 (- h) (- h) h; Vec3 (- h) h (- h); Vec3 (- h) h h;
   Vec3 h (- h) (- h); Vec3 h (- h) h; Vec3 h h (- h); Vec3 h h h].

(** [bpy.ops.mesh.primitive_cube_add] *)
Definition primitive_cube_add (size : R) (loc : vec3) (w : world) : nat * world :=
  let sz := Rmax 0 size in
  primitive_add "Cube" (Mesh (cube_vertices sz) []) loc (Vec3 sz sz sz) w.

(** [obj.dimensions] of an unscaled mesh object: the sides of the bounding
    box of its vertices. *)
Definition extent (f : vec3 -> R) (vs : list vec3) : R :=
  match map f vs with
  | [] => 0
  | c :: cs => fold_right Rmax c cs - fold_right Rmin c cs
  end.

Definition bounding_box (vs : list vec3) : vec3 :=
  Vec3 (extent vx vs) (extent vy vs) (extent vz vs).

(** [obj.dimensions = d] on a unit cube: every axis is scaled to the
    magnitude asked for and the scale keeps its sign, so that a negative
    component reads back as its absolute value. *)
Definition assign_dimensions (d : vec3) (o : object) : object :=
  set_dimensions (Vec3 (Rabs (vx d)) (Rabs (vy d)) (Rabs (vz d))) o.

(** [obj.matrix_world @ co].  Objects added with [align='WORLD'] have no
    rotation and unit scale, so the matrix is the translation by the
    object's location. *)
Definition matrix_world_apply (o : object) (co : vec3) : vec3 :=
  vec3_add (location o) co.

(** [bpy.data.objects.new(name, object_data)]: in no collection yet. *)
Definition objects_new (n : string) (d : object_data) (w : world) : nat * world :=
  let id := fresh_id w in
  let o := Object id (unique_name (object_names w) n) d vec3_zero vec3_zero
             vec3_zero false [] false in
  (id, set_next_id (S id) (set_objects (fun os => os ++ [o]) w)).

(** [coll.objects.link(obj)] and [coll.objects.unlink(obj)] *)
Definition link_object (c : coll_ref) (id : nat) (w : world) : world :=
  update_object id (set_users_collection (fun cs => cs ++ [c])) w.

Definition unlink_object (c : coll_ref) (id : nat) (w : world) : world :=
  update_object id
    (set_users_collection (filter (fun c' => negb (coll_ref_eqb c' c)))) w.

(** [coll.objects] *)
Definition collection_objects (w : world) (c : coll_ref) : list object :=
  filter (fun o => existsb (coll_ref_eqb c) (users_collection o)) (objects w).

Definition collection_names (w : world) : list string :=
  map coll_name (collections w).

(** [bpy.data.collections.new(name)] *)
Definition collections_new (n : string) (w : world) : string * world :=
  let n' := unique_name (collection_names w) n in
  (n', set_collections (fun cs => cs ++ [Collection n' [] 0]) w).

(** [collection.users] *)
Definition collection_users (w : world) (c : collection) : nat :=
  count_occ string_dec (scene_children w) (coll_name c)
  + list_sum (map (fun p => count_occ string_dec (coll_children p) (coll_name c))
                  (collections w))
  + coll_other_users c.

Definition drop_name (n : string) (l : list string) : list string :=
  filter (fun m => negb (String.eqb m n)) l.

(** The active collection is always one of the scene: when it leaves the
    scene, the scene collection becomes the active one. *)
Definition sync_active_collection (w : world) : world :=
  if in_scene w (active_collection w) then w
  else set_active_collection SceneCollection w.

(** [scene.collection.children.unlink(coll)] *)
Definition scene_children_unlink (n : string) (w : world) : world :=
  sync_active_collection (set_scene_children (drop_name n) w).

(** [bpy.data.collections.remove(coll)] *)
Definition collections_remove (n : string) (w : world) : world :=
  sync_active_collection
    (set_objects
       (map (set_users_collection (filter (fun c => negb (coll_ref_eqb c (Named n))))))
       (set_scene_children (drop_name n)
          (set_collections
             (fun cs =>
                map (fun c => Collection (coll_name c) (drop_name n (coll_children c))
                                (coll_other_users c))
                    (filter (fun c => negb (String.eqb (coll_name c) n)) cs))
             w))).

Definition material_names (w : world) : list string :=
  map mat_name (materials w).

Definition find_material (w : world) (n : string) : option material :=
  find (fun m => String.eqb (mat_name m) n) (materials w).

(** [bpy.data.materials.new(name)] *)
Definition materials_new (n : string) (w : world) : string * world :=
  let n' := unique_name (material_names w) n in
  (n', set_materials (fun ms => ms ++ [Material n' false None]) w).

Definition update_material (n : string) (f : material -> material) (w : world) : world :=
  set_materials (map (fun m => if String.eqb (mat_name m) n then f m else m)) w.

(** The node tree a material gets when [use_nodes] is switched on. *)
Definition default_principled : principled :=
  Principled (8 / 10, 8 / 10, 8 / 10, 1) (5 / 10) 0.

Definition enable_nodes (m : material) : material :=
  Material (mat_name m) true
    (match bsdf m with Some b => Some b | None => Some default_principled end).

(** [math.radians] *)
Definition radians (deg : R) : R := deg * PI / 180.

(** [random.uniform(a, b)] from the next unit sample. *)
Definition uniform (env : host_env) (a b : R) (w : world) : R * world :=
  (a + (b - a) * rnd env (rng w), set_rng (S (rng w)) w).

End Host.

(** ** The script *)

(** How a call ends: normally, or with the [AttributeError] Python raises
    when [.vertices] or [.materials] is read from data that has none. *)
Inductive status := Completed | AttributeError.

Definition err_no_terrain : string :=
  "Error: Objeto terreno no encontrado o sin datos de malla.".

Definition err_zero_subdivisions : string :=
  "Error: Las subdivisiones no pueden ser cero.".

(** *** [clear_scene] (lines 24-56) *)

Definition clear_collection_step (st : world * list string) (c : collection)
    : world * list string :=
  let '(w, collections_to_remove) := st in
  match Host.collection_objects w (Named (coll_name c)) with
  | [] =>
      let is_scene_collection_child :=
        Host.mem_string (coll_name c) (scene_children w) in
      let can_be_removed :=
        negb (coll_ref_eqb (Named (coll_name c)) SceneCollection) in
      if can_be_removed then
        let w1 :=
          if is_scene_collection_child
          then Host.scene_children_unlink (coll_name c) w
          else w in
        if Nat.eqb (Host.collection_users w1 c) 0
        then (w1, collections_to_remove ++ [coll_name c])
        else (w1, collections_to_remove)
      else (w, collections_to_remove)
  | _ :: _ => (w, collections_to_remove)
  end.

Definition clear_scene (w : world) : world :=
  let w0 :=
    match active_object w, mode w with
    | Some _, OBJECT => w
    | Some _, _ => Host.mode_set OBJECT w
    | None, _ => w
    end in
  let w1 := Host.select_by_type MESH (Host.select_all_deselect w0) in
  let w2 :=
    match Host.selected_objects w1 with
    | [] => w1
    | _ :: _ => Host.delete w1
    end in
  let '(w3, collections_to_remove) :=
    fold_left clear_collection_step (collections w2) (w2, []) in
  fold_left (fun wi n => Host.collections_remove n wi) collections_to_remove w3.

(** *** [create_terrain] (lines 58-99) *)

(** The loop over [bm.verts] with [bmesh.update_edit_mesh]: the vertices
    move, and the object's dimensions follow its mesh. *)
Definition map_vertices (f : vec3 -> vec3) (o : object) : object :=
  match ob_data o with
  | MeshData m =>
      set_dimensions (Host.bounding_box (map f (vertices m)))
        (set_data (MeshData (Mesh (map f (vertices m)) (mesh_materials m))) o)
  | _ => o
  end.

Definition create_terrain (cfg : config) (name : string) (w : world)
    : option object * world :=
  let '(id, w1) :=
    Host.primitive_grid_add (x_subdivisions cfg) (y_subdivisions cfg)
      (grid_size cfg) vec3_zero w in
  let w2 := Host.rename_object id name w1 in
  let w3 := if Host.mode_set_poll w2 then Host.mode_set EDIT w2 else w2 in
  let w4 := update_object id (map_vertices (displace cfg)) w3 in
  let w5 := if Host.mode_set_poll w4 then Host.mode_set OBJECT w4 else w4 in
  (get_object w5 id, w5).

(** *** [create_buildings] (lines 101-161) *)

Definition building_base_z (cfg : config) (terrain_z_at_vertex : R) : R :=
  terrain_z_at_vertex - building_embed_depth cfg.

Definition building_center_z (cfg : config) (terrain_z_at_vertex building_height : R) : R :=
  building_base_z cfg terrain_z_at_vertex + building_height / 2.

Definition cell_width_x (cfg : config) : R := grid_size cfg / INR (x_subdivisions cfg).
Definition cell_width_y (cfg : config) : R := grid_size cfg / INR (y_subdivisions cfg).

Definition building_size_x (cfg : config) : R :=
  cell_width_x cfg * (1 - street_width_factor cfg).
Definition building_size_y (cfg : config) : R :=
  cell_width_y cfg * (1 - street_width_factor cfg).

(** One turn of the loop over the terrain's vertices. *)
Definition place_building (cfg : config) (env : host_env) (terrain_obj : object)
    (building_collection : string) (st : world * nat) (vert : vec3) : world * nat :=
  let '(w, building_count) := st in
  let world_co := Host.matrix_world_apply terrain_obj vert in
  let terrain_z_at_vertex := vz world_co in
  let '(building_height, w1) :=
    Host.uniform env (building_min_height cfg) (building_max_height cfg) w in
  let center_z := building_center_z cfg terrain_z_at_vertex building_height in
  let location_x := vx world_co in
  let location_y := vy world_co in
  let '(id, w2) :=
    Host.primitive_cube_add 1 (Vec3 location_x location_y center_z) w1 in
  let w3 :=
    Host.rename_object id (String.append "Building_" (Host.pad3 building_count)) w2 in
  let w4 :=
    update_object id
      (Host.assign_dimensions
         (Vec3 (building_size_x cfg) (building_size_y cfg) building_height))
      w3 in
  let original_collections :=
    match get_object w4 id with
    | Some o => users_collection o
    | None => []
    end in
  let w5 := fold_left (fun wi c => Host.unlink_object c id wi) original_collections w4 in
  (Host.link_object (Named building_collection) id w5, S building_count).

Definition buildings_collection_name : string := "Buildings".

Definition create_buildings (cfg : config) (env : host_env)
    (terrain_obj : option object) (w : world) : world * status :=
  match terrain_obj with
  | None => (print err_no_terrain w, Completed)
  | Some t =>
      match ob_data t with
      | NoData => (print err_no_terrain w, Completed)
      | MeshData mesh =>
          if Nat.eqb (x_subdivisions cfg) 0 || Nat.eqb (y_subdivisions cfg) 0
          then (print err_zero_subdivisions w, Completed)
          else
            let '(building_collection, w1) :=
              if Host.mem_string buildings_collection_name (Host.collection_names w)
              then (buildings_collection_name, w)
              else
                let '(n, w') := Host.collections_new buildings_collection_name w in
                (n, set_scene_children (fun cs => cs ++ [n]) w') in
            (fst (fold_left (place_building cfg env t building_collection)
                    (vertices mesh) (w1, 0%nat)),
             Completed)
      | _ => (w, AttributeError)
      end
  end.

(** *** [setup_scene] (lines 163-261) *)

(** Lines 167-175: existing lights and cameras are deleted. *)
Definition delete_type_if_selected (w : world) (obj_type : object_type) : world :=
  let w1 := Host.select_by_type obj_type w in
  match Host.selected_objects w1 with
  | [] => w1
  | _ :: _ => Host.delete w1
  end.

Definition clear_lights_and_cameras (w : world) : world :=
  let w1 := Host.select_all_deselect w in
  let objects_to_delete :=
    filter (fun o => is_type LIGHT o || is_type CAMERA o) (objects w1) in
  match objects_to_delete with
  | [] => w1
  | _ :: _ =>
      Host.select_all_deselect
        (fold_left delete_type_if_selected [LIGHT; CAMERA] w1)
  end.

(** Lines 179-185: the sun. *)
Definition create_sun (cfg : config) (w : world) : world :=
  let light_name := Host.unique_name (map light_name (lights w)) "SunLight" in
  let w1 := set_lights (fun ls => ls ++ [Light light_name 4 (Host.radians 5)]) w in
  let '(light_object, w2) := Host.objects_new "SunLightObj" (LightData light_name) w1 in
  let w3 := Host.link_object SceneCollection light_object w2 in
  let w4 :=
    update_object light_object
      (set_location (Vec3 (grid_size cfg * (8 / 10)) (- grid_size cfg * (8 / 10))
                          (grid_size cfg * (12 / 10)))) w3 in
  update_object light_object
    (set_rotation_euler (Vec3 (Host.radians 45) (Host.radians 5) (Host.radians (-45))))
    w4.

(** Lines 188-194: the camera. *)
Definition create_camera (cfg : config) (w : world) : world :=
  let cam_name := Host.unique_name (map camera_name (cameras w)) "SceneCamera" in
  let w1 := set_cameras (fun cs => cs ++ [Camera cam_name]) w in
  let '(cam_object, w2) := Host.objects_new "SceneCameraObj" (CameraData cam_name) w1 in
  let w3 := Host.link_object SceneCollection cam_object w2 in
  let w4 := set_scene_camera (Some cam_object) w3 in
  let w5 :=
    update_object cam_object
      (set_location (Vec3 (grid_size cfg * (12 / 10)) (- grid_size cfg * (12 / 10))
                          (grid_size cfg * (9 / 10)))) w4 in
  update_object cam_object
    (set_rotation_euler (Vec3 (Host.radians 60) 0 (Host.radians (-45)))) w5.

(** Lines 199-215: render engine, device with its fallback, samples. *)
Definition set_device (d : string) (r : render_settings) : render_settings :=
  Render (engine r) d (cycles_samples r) (adaptive_min_samples r) (use_denoising r).

Definition configure_render (env : host_env) (w : world) : world :=
  let w1 :=
    set_render (fun r => Render "CYCLES" (cycles_device r) (cycles_samples r)
                           (adaptive_min_samples r) (use_denoising r)) w in
  let w2 :=
    match gpu env with
    | GpuAccepted =>
        print "Dispositivo de Cycles establecido en GPU."
          (set_render (set_device "GPU") w1)
    | GpuIgnored =>
        set_render (set_device "CPU")
          (print "GPU no establecida efectivamente o no disponible, usando CPU." w1)
    | GpuError e =>
        set_render (set_device "CPU")
          (print (String.append "No se pudo establecer Cycles en GPU ("
                    (String.append e "), usando CPU.")) w1)
    end in
  set_render
    (fun r => Render (engine r) (cycles_device r) 128
                (if has_adaptive_min_samples env then Some 64%nat
                 else adaptive_min_samples r)
                true) w2.

(** Lines 219-230 and 240-252: a material is looked up by name and only
    created, with its node settings, when it is absent. *)
Definition with_bsdf (f : principled -> principled) (m : material) : material :=
  let node :=
    match bsdf m with
    | Some b => b
    | None => Host.default_principled
    end in
  Material (mat_name m) (use_nodes m) (Some (f node)).

Definition terrain_material (w : world) : string * world :=
  let terrain_mat_name := "TerrainMaterial"%string in
  if Host.mem_string terrain_mat_name (Host.material_names w)
  then (terrain_mat_name, w)
  else
    let '(terrain_mat, w1) := Host.materials_new terrain_mat_name w in
    let w2 := Host.update_material terrain_mat Host.enable_nodes w1 in
    (terrain_mat,
     Host.update_material terrain_mat
       (with_bsdf (fun b => Principled (15 / 100, 2 / 10, 1 / 10, 1) (9 / 10) (metallic b)))
       w2).

Definition building_material (w : world) : string * world :=
  let building_mat_name := "BuildingMaterial"%string in
  if Host.mem_string building_mat_name (Host.material_names w)
  then (building_mat_name, w)
  else
    let '(building_mat, w1) := Host.materials_new building_mat_name w in
    let w2 := Host.update_material building_mat Host.enable_nodes w1 in
    (building_mat,
     Host.update_material building_mat
       (with_bsdf (fun _ => Principled (7 / 10, 7 / 10, 72 / 100, 1) (7 / 10) 0))
       w2).

(** [data.materials[0] = mat] when there is a slot, [append] otherwise. *)
Definition assign_material (mat : string) (m : mesh) : mesh :=
  match mesh_materials m with
  | [] => Mesh (vertices m) [mat]
  | _ :: rest => Mesh (vertices m) (mat :: rest)
  end.

Definition assign_slot (mat : string) (slots : list string) : list string :=
  match slots with
  | [] => [mat]
  | _ :: rest => mat :: rest
  end.

Definition assign_object_material (mat : string) (o : object) : object :=
  match ob_data o with
  | MeshData m => set_data (MeshData (assign_material mat m)) o
  | OtherData (Some slots) => set_data (OtherData (Some (assign_slot mat slots))) o
  | _ => o
  end.

(** Whether [obj.data.materials] can be read: the data has material
    slots. *)
Definition has_materials (o : object) : bool :=
  match ob_data o with
  | MeshData _ | OtherData (Some _) => true
  | _ => false
  end.

(** Lines 232-237. *)
Definition assign_terrain_material (terrain_mat : string) (w : world) : world * status :=
  match find (fun o => String.eqb (ob_name o) "Terrain") (objects w) with
  | None => (w, Completed)
  | Some terrain =>
      if has_materials terrain
      then (update_object (ob_id terrain) (assign_object_material terrain_mat) w,
            Completed)
      else (w, AttributeError)
  end.

(** Lines 254-261. *)
Definition assign_building_materials (building_mat : string) (w : world) : world :=
  if Host.mem_string buildings_collection_name (Host.collection_names w) then
    set_objects
      (map (fun obj =>
              if existsb (coll_ref_eqb (Named buildings_collection_name))
                   (users_collection obj)
                 && is_type MESH obj
              then assign_object_material building_mat obj
              else obj)) w
  else w.

Definition setup_scene (cfg : config) (env : host_env) (w : world) : world * status :=
  let w1 := clear_lights_and_cameras w in
  let w2 := create_sun cfg w1 in
  let w3 := create_camera cfg w2 in
  let w4 := configure_render env w3 in
  let '(terrain_mat, w5) := terrain_material w4 in
  match assign_terrain_material terrain_mat w5 with
  | (w6, AttributeError) => (w6, AttributeError)
  | (w6, Completed) =>
      let '(building_mat, w7) := building_material w6 in
      (assign_building_materials building_mat w7, Completed)
  end.

(** *** The script's main block (lines 265-270) *)

Definition main (cfg : config) (env : host_env) (w : world) : world * status :=
  let w1 := clear_scene w in
  let '(terrain_object, w2) := create_terrain cfg "Terrain" w1 in
  let r :=
    match terrain_object with
    | Some _ => create_buildings cfg env terrain_object w2
    | None => (w2, Completed)
    end in
  match r with
  | (w3, AttributeError) => (w3, AttributeError)
  | (w3, Completed) => setup_scene cfg env w3
  end.

(** ** Notions the statements use *)

(** The height [random.uniform] gives from unit sample number [k]. *)
Definition building_height_at (cfg : config) (env : host_env) (k : nat) : R :=
  building_min_height cfg
  + (building_max_height cfg - building_min_height cfg) * rnd env k.

(** Two worlds with the same data blocks other than objects, the same scene
    links and the same console. *)
Definition same_data (w w' : world) : Prop :=
  collections w' = collections w /\
  scene_children w' = scene_children w /\
  lights w' = lights w /\
  cameras w' = cameras w /\
  materials w' = materials w /\
  console w' = console w.

(** Where an object stands and how large it is. *)
Definition geometry (o : object) : vec3 * vec3 := (location o, dimensions o).

(** The points the loop of [create_buildings] visits: the terrain's
    vertices in world coordinates, none when a guard stops the call. *)
Definition building_sites (cfg : config) (terrain_obj : option object) : list vec3 :=
  match terrain_obj with
  | Some t =>
      match ob_data t with
      | MeshData m =>
          if Nat.eqb (x_subdivisions cfg) 0 || Nat.eqb (y_subdivisions cfg) 0
          then []
          else map (Host.matrix_world_apply t) (vertices m)
      | _ => []
      end
  | None => []
  end.

(** Location and dimensions of the buildings the loop makes at [sites],
    drawing unit samples from number [k] on.  The dimensions read back are
    the magnitudes of the sizes the script asks for. *)
Fixpoint planned (cfg : config) (env : host_env) (k : nat) (sites : list vec3)
    : list (vec3 * vec3) :=
  match sites with
  | [] => []
  | s :: rest =>
      (Vec3 (vx s) (vy s) (building_center_z cfg (vz s) (building_height_at cfg env k)),
       Vec3 (Rabs (building_size_x cfg)) (Rabs (building_size_y cfg))
            (Rabs (building_height_at cfg env k)))
      :: planned cfg env (S k) rest
  end.

(** The objects a call of [create_buildings] adds to the scene. *)
Definition buildings_placed (cfg : config) (env : host_env)
    (terrain_obj : option object) (w : world) : list object :=
  skipn (List.length (objects w))
        (objects (fst (create_buildings cfg env terrain_obj w))).

(** The bottom face of a box: its centre less half its height. *)
Definition bottom_z (o : object) : R := vz (location o) - vz (dimensions o) / 2.

(** The buildings of a run: those [create_buildings] places on the terrain
    [create_terrain] has just made. *)
Definition city_buildings (cfg : config) (env : host_env) (w : world) : list object :=
  buildings_placed cfg env (fst (create_terrain cfg "Terrain" w))
    (snd (create_terrain cfg "Terrain" w)).

(** Footprint of a box on the ground plane, as intervals per axis. *)
Definition lo_x (o : object) : R := vx (location o) - vx (dimensions o) / 2.
Definition hi_x (o : object) : R := vx (location o) + vx (dimensions o) / 2.
Definition lo_y (o : object) : R := vy (location o) - vy (dimensions o) / 2.
Definition hi_y (o : object) : R := vy (location o) + vy (dimensions o) / 2.

(** Two footprints overlap when they share a piece of ground of positive
    area. *)
Definition footprints_overlap (a b : object) : Prop :=
  lo_x a < hi_x b /\ lo_x b < hi_x a /\ lo_y a < hi_y b /\ lo_y b < hi_y a.

(** Row and column numbers of the vertices of a grid, in vertex order. *)
Definition grid_indices (nx ny : nat) : list (nat * nat) :=
  flat_map (fun j => map (fun i => (i, j)) (seq 0 (S nx))) (seq 0 (S ny)).

(** An object centred at a grid vertex, the vertices being one cell width
    apart on each axis from the corner of the extent. *)
Definition on_grid (cfg : config) (ij : nat * nat) (b : object) : Prop :=
  (fst ij <= x_subdivisions cfg)%nat /\
  (snd ij <= y_subdivisions cfg)%nat /\
  vx (location b) = - grid_size cfg / 2 + INR (fst ij) * cell_width_x cfg /\
  vy (location b) = - grid_size cfg / 2 + INR (snd ij) * cell_width_y cfg.

(** What identifies an object and says what kind it is. *)
Definition id_view (o : object) : nat * string * object_type :=
  (ob_id o, ob_name o, ob_type o).


(** The same together with what decides whether the operators reach the
    object. *)
Definition link_view (o : object) : nat * string * object_type * bool * list coll_ref :=
  (id_view o, hidden o, users_collection o).



(** ** Scenes and parameter sets used as examples *)

Definition empty_world : world :=
  World [] [] [] [] [] [] None (Render "" "" 0 None false) None OBJECT 0 0 []
    SceneCollection.

(** Frequency 0 with a height scale of 3. *)
Definition wavy_scale_config : config := {|
  grid_size := 20;
  x_subdivisions := 2;
  y_subdivisions := 3;
  terrain_height_scale := 3;
  terrain_wave_frequency := 0;
  building_min_height := 1;
  building_max_height := 7;
  street_width_factor := 5 / 10;
  building_embed_depth := 1 / 10
|}.

(** A host that accepts the GPU and whose random samples are all 1/2. *)
Definition constant_env : host_env :=
  {| gpu := GpuAccepted; has_adaptive_min_samples := true; rnd := fun _ => 1 / 2 |}.

(** The script's parameters with no subdivision along x. *)
Definition no_columns_config : config := {|
  grid_size := 20;
  x_subdivisions := 0;
  y_subdivisions := 30;
  terrain_height_scale := 0;
  terrain_wave_frequency := 0;
  building_min_height := 1;
  building_max_height := 7;
  street_width_factor := 5 / 10;
  building_embed_depth := 1 / 10
|}.

(** A one-vertex mesh object, and a scene that holds it together with an
    empty collection. *)
Definition flat_square : object :=
  Object 0 "Terrain" (MeshData (Mesh [vec3_zero] [])) vec3_zero vec3_zero vec3_zero
    false [SceneCollection] false.

Definition one_collection_world : world :=
  World [flat_square] [Collection "Props" [] 0] ["Props"%string] [] [] [] None
    (Render "" "" 0 None false) None OBJECT 1 0 [] SceneCollection.

(** A one-cell city, and the scenes one and two runs of the script leave
    from an empty scene. *)
Definition tiny_config : config := {|
  grid_size := 20;
  x_subdivisions := 1;
  y_subdivisions := 1;
  terrain_height_scale := 0;
  terrain_wave_frequency := 0;
  building_min_height := 1;
  building_max_height := 7;
  street_width_factor := 5 / 10;
  building_embed_depth := 1 / 10
|}.

(** The one-cell city with parameters outside their usual ranges: a street
    factor of 5/2, a street factor of 3/2, a negative extent, and negative
    heights. *)
Definition crowded_config : config := {|
  grid_size := 20;
  x_subdivisions := 1;
  y_subdivisions := 1;
  terrain_height_scale := 0;
  terrain_wave_frequency := 0;
  building_min_height := 1;
  building_max_height := 7;
  street_width_factor := 5 / 2;
  building_embed_depth := 1 / 10
|}.

Definition wide_street_config : config := {|
  grid_size := 20;
  x_subdivisions := 1;
  y_subdivisions := 1;
  terrain_height_scale := 0;
  terrain_wave_frequency := 0;
  building_min_height := 1;
  building_max_height := 7;
  street_width_factor := 3 / 2;
  building_embed_depth := 1 / 10
|}.

Definition negative_extent_config : config := {|
  grid_size := -6;
  x_subdivisions := 1;
  y_subdivisions := 1;
  terrain_height_scale := 0;
  terrain_wave_frequency := 0;
  building_min_height := 1;
  building_max_height := 7;
  street_width_factor := 1 / 2;
  building_embed_depth := 1 / 10
|}.

Definition sunken_config : config := {|
  grid_size := 20;
  x_subdivisions := 1;
  y_subdivisions := 1;
  terrain_height_scale := 0;
  terrain_wave_frequency := 0;
  building_min_height := -3;
  building_max_height := -1;
  street_width_factor := 1 / 2;
  building_embed_depth := 1 / 10
|}.

Definition first_run : world := fst (main tiny_config constant_env empty_world).


(** An empty (a non-mesh object) kept in the "Props" collection, and a
    scene with it, a mesh and a second, unused collection. *)
Definition marker_empty : object :=
  Object 1 "Marker" NoData vec3_zero vec3_zero vec3_zero false [Named "Props"] false.

Definition props_world : world :=
  World [flat_square; marker_empty]
    [Collection "Props" [] 0; Collection "Spare" [] 0] ["Props"; "Spare"]%string
    [] [] [] None (Render "" "" 0 None false) None OBJECT 2 0 [] SceneCollection.

(** * Verification *)

(** ** Objects and their identities *)

Definition fresh (id : nat) (os : list object) : Prop :=
  Forall (fun o => ob_id o <> id) os.

Lemma fresh_id_fresh (w : world) : fresh (Host.fresh_id w) (objects w).
Proof.
  unfold fresh, Host.fresh_id. apply Forall_forall. intros o Ho.
  assert (H : (ob_id o <= list_max (map ob_id (objects w)))%nat).
  { pose proof (proj1 (list_max_le (map ob_id (objects w)) _) (Nat.le_refl _)) as Hall.
    rewrite Forall_forall in Hall. apply Hall. now apply in_map. }
  lia.
Qed.

Lemma fresh_map_select (id : nat) (b : bool) (os : list object) :
  fresh id os -> fresh id (map (set_select b) os).
Proof.
  unfold fresh. rewrite !Forall_forall. intros H o Ho.
  apply in_map_iff in Ho. destruct Ho as [o' [<- Ho']]. simpl. now apply H.
Qed.

Lemma map_update_fresh (id : nat) (f : object -> object) (os : list object) :
  fresh id os ->
  map (fun o => if Nat.eqb (ob_id o) id then f o else o) os = os.
Proof.
  induction 1 as [|o os Ho _ IH]; simpl; [reflexivity|].
  rewrite IH. apply Nat.eqb_neq in Ho. now rewrite Ho.
Qed.

Lemma update_object_last (id : nat) (f : object -> object) (w : world)
    (os : list object) (o : object) :
  objects w = os ++ [o] -> fresh id os -> ob_id o = id ->
  objects (update_object id f w) = os ++ [f o].
Proof.
  intros Hw Hf Hid. unfold update_object. simpl. rewrite Hw, map_app.
  rewrite map_update_fresh by assumption. simpl.
  now rewrite Hid, Nat.eqb_refl.
Qed.

Lemma find_last_fresh (id : nat) (os : list object) (o : object) :
  fresh id os -> ob_id o = id ->
  find (fun o' => Nat.eqb (ob_id o') id) (os ++ [o]) = Some o.
Proof.
  intros Hf Hid. induction Hf as [|o' os Ho' _ IH]; simpl.
  - now rewrite Hid, Nat.eqb_refl.
  - apply Nat.eqb_neq in Ho'. now rewrite Ho'.
Qed.

Lemma get_object_last (id : nat) (w : world) (os : list object) (o : object) :
  objects w = os ++ [o] -> fresh id os -> ob_id o = id ->
  get_object w id = Some o.
Proof. intros Hw Hf Hid. unfold get_object. rewrite Hw. now apply find_last_fresh. Qed.

(** ** The terrain *)

(** The vertices of the object [create_terrain] returns. *)
Definition terrain_vertices (terrain_obj : option object) : list vec3 :=
  match terrain_obj with
  | Some o => match ob_data o with MeshData m => vertices m | _ => [] end
  | None => []
  end.

(** The grid the host hands to [create_terrain]. *)
Definition host_grid (cfg : config) : list vec3 :=
  Host.grid_vertices (Nat.max 1 (x_subdivisions cfg)) (Nat.max 1 (y_subdivisions cfg))
    (Rmax 0 (grid_size cfg)).

Lemma grid_vertices_length (nx ny : nat) (size : R) :
  List.length (Host.grid_vertices nx ny size) = (S ny * S nx)%nat.
Proof.
  unfold Host.grid_vertices.
  assert (H : forall l : list nat,
    List.length
      (flat_map (fun j => map (fun i => Vec3 (Host.grid_coord nx size i)
                                          (Host.grid_coord ny size j) 0)
                              (seq 0 (S nx))) l)
    = (List.length l * S nx)%nat).
  { induction l as [|j l IH]; [reflexivity|].
    cbn [flat_map]. rewrite length_app, IH, length_map, length_seq.
    cbn [List.length]. lia. }
  rewrite H, length_seq. reflexivity.
Qed.

(** What [create_terrain] returns and leaves in the scene: the earlier
    objects, deselected, followed by the terrain. *)
Lemma create_terrain_result (cfg : config) (name : string) (w : world) :
  exists t,
    fst (create_terrain cfg name w) = Some t /\
    objects (snd (create_terrain cfg name w)) =
      map (set_select false) (objects w) ++ [t] /\
    ob_id t = Host.fresh_id w /\
    ob_data t = MeshData (Mesh (map (displace cfg) (host_grid cfg)) []) /\
    location t = vec3_zero.
Proof.
  unfold create_terrain, Host.primitive_grid_add, Host.primitive_add.
  cbv zeta.
  set (id := Host.fresh_id w).
  set (o := Object id _ _ _ _ _ _ _ _).
  set (w1 := set_mode OBJECT _).
  assert (H1 : objects w1 = map (set_select false) (objects w) ++ [o]) by reflexivity.
  assert (Hf : fresh id (map (set_select false) (objects w)))
    by (apply fresh_map_select, fresh_id_fresh).
  set (w2 := Host.rename_object id name w1).
  assert (H2 : exists n, objects w2 = map (set_select false) (objects w) ++ [set_name n o]).
  { eexists. unfold w2, Host.rename_object.
    apply (update_object_last id _ w1 _ o H1 Hf eq_refl). }
  destruct H2 as [n H2].
  assert (Hp2 : Host.mode_set_poll w2 = true) by reflexivity.
  rewrite Hp2.
  set (w3 := Host.mode_set EDIT w2).
  assert (H3 : objects w3 = map (set_select false) (objects w) ++ [set_name n o])
    by exact H2.
  set (w4 := update_object id (map_vertices (displace cfg)) w3).
  pose proof (update_object_last id (map_vertices (displace cfg)) w3 _ _ H3 Hf eq_refl) as H4.
  fold w4 in H4.
  assert (Hp4 : Host.mode_set_poll w4 = true) by reflexivity.
  rewrite Hp4.
  set (w5 := Host.mode_set OBJECT w4).
  assert (H5 : objects w5 = map (set_select false) (objects w)
                            ++ [map_vertices (displace cfg) (set_name n o)]) by exact H4.
  exists (map_vertices (displace cfg) (set_name n o)).
  cbn [fst snd].
  split; [ apply (get_object_last id w5 _ _ H5 Hf); reflexivity |].
  split; [ exact H5 |].
  repeat split; reflexivity.
Qed.

Lemma create_terrain_vertices (cfg : config) (name : string) (w : world) :
  terrain_vertices (fst (create_terrain cfg name w)) = map (displace cfg) (host_grid cfg).
Proof.
  destruct (create_terrain_result cfg name w) as [t [Ht [_ [_ [Hd _]]]]].
  rewrite Ht. unfold terrain_vertices. now rewrite Hd.
Qed.

(** C1.  Every vertex of the terrain keeps the local (x, y) the grid gave it
    and gets the height s/2 * (sin(x f) cos(y f) + sin(x f 0.5 + 1) cos(y f 0.5)),
    with f the wave frequency and s the height scale. *)
Theorem create_terrain_height_formula (cfg : config) (name : string) (w : world) :
  terrain_vertices (fst (create_terrain cfg name w)) =
  map (fun p =>
         Vec3 (vx p) (vy p)
           (spec_height (terrain_wave_frequency cfg) (terrain_height_scale cfg)
              (vx p) (vy p)))
      (host_grid cfg).
Proof.
  rewrite create_terrain_vertices. apply map_ext. intros p.
  unfold displace, set_z. now rewrite terrain_z_spec.
Qed.

Lemma create_terrain_vertex_count (cfg : config) (name : string) (w : world) :
  List.length (terrain_vertices (fst (create_terrain cfg name w))) =
  (S (Nat.max 1 (y_subdivisions cfg)) * S (Nat.max 1 (x_subdivisions cfg)))%nat.
Proof.
  rewrite create_terrain_vertices, length_map. unfold host_grid.
  apply grid_vertices_length.
Qed.

(** C7.  With a height scale of 0 the terrain has all its grid vertices and
    each of them has height exactly 0, whatever the wave frequency. *)
Theorem flat_terrain_when_scale_zero (cfg : config) (name : string) (w : world) :
  terrain_height_scale cfg = 0 ->
  List.length (terrain_vertices (fst (create_terrain cfg name w))) =
    (S (Nat.max 1 (y_subdivisions cfg)) * S (Nat.max 1 (x_subdivisions cfg)))%nat /\
  Forall (fun v => vz v = 0) (terrain_vertices (fst (create_terrain cfg name w))).
Proof.
  intros Hs. split; [apply create_terrain_vertex_count|].
  rewrite create_terrain_vertices. apply Forall_forall. intros v Hv.
  apply in_map_iff in Hv. destruct Hv as [p [<- _]].
  unfold displace, set_z, terrain_z. cbn [vz]. rewrite Hs. lra.
Qed.

Lemma flat_terrain_when_scale_zero_witness :
  terrain_height_scale default_config = 0 /\
  Forall (fun v => vz v = 0)
    (terrain_vertices (fst (create_terrain default_config "Terrain" empty_world))).
Proof.
  split; [reflexivity|].
  apply (flat_terrain_when_scale_zero default_config "Terrain" empty_world).
  reflexivity.
Defined.

(** C8.  With a wave frequency of 0 every vertex of the terrain has the same
    height, height_scale/2 * (0*1 + sin(1)*1); this holds for every height
    scale, in particular for a scale other than 0. *)
Theorem constant_terrain_when_frequency_zero (cfg : config) (name : string) (w : world) :
  terrain_wave_frequency cfg = 0 ->
  List.length (terrain_vertices (fst (create_terrain cfg name w))) =
    (S (Nat.max 1 (y_subdivisions cfg)) * S (Nat.max 1 (x_subdivisions cfg)))%nat /\
  Forall (fun v => vz v = terrain_height_scale cfg / 2 * (0 * 1 + sin 1 * 1))
    (terrain_vertices (fst (create_terrain cfg name w))).
Proof.
  intros Hf. split; [apply create_terrain_vertex_count|].
  rewrite create_terrain_vertices. apply Forall_forall. intros v Hv.
  apply in_map_iff in Hv. destruct Hv as [p [<- _]].
  unfold displace, set_z, terrain_z. cbn [vz]. rewrite Hf.
  rewrite !Rmult_0_r, !Rmult_0_l, Rplus_0_l, sin_0, cos_0. lra.
Qed.

Lemma constant_terrain_when_frequency_zero_witness :
  terrain_wave_frequency wavy_scale_config = 0 /\
  terrain_height_scale wavy_scale_config <> 0 /\
  Forall (fun v => vz v = terrain_height_scale wavy_scale_config / 2 * (0 * 1 + sin 1 * 1))
    (terrain_vertices (fst (create_terrain wavy_scale_config "Terrain" empty_world))).
Proof.
  split; [reflexivity|]. split; [simpl; lra|].
  apply (constant_terrain_when_frequency_zero wavy_scale_config "Terrain" empty_world).
  reflexivity.
Defined.

(** ** Buildings *)

(** What one turn of the loop adds: one cube after the earlier objects,
    which it leaves as they are but for their selection. *)
Lemma place_building_step (cfg : config) (env : host_env) (t : object)
    (coll : string) (w : world) (c : nat) (v : vec3) :
  exists b w',
    place_building cfg env t coll (w, c) v = (w', S c) /\
    objects w' = map (set_select false) (objects w) ++ [b] /\
    ob_id b = Host.fresh_id w /\
    location b =
      Vec3 (vx (Host.matrix_world_apply t v)) (vy (Host.matrix_world_apply t v))
        (building_center_z cfg (vz (Host.matrix_world_apply t v))
           (building_height_at cfg env (rng w))) /\
    dimensions b =
      Vec3 (Rabs (building_size_x cfg)) (Rabs (building_size_y cfg))
        (Rabs (building_height_at cfg env (rng w))) /\
    ob_type b = MESH /\
    users_collection b = [Named coll] /\
    rng w' = S (rng w) /\
    same_data w w'.
Proof.
  assert (Hac : coll_ref_eqb (active_collection w) (active_collection w) = true)
    by (destruct (active_collection w); [reflexivity | apply String.eqb_refl]).
  unfold place_building, Host.uniform, Host.primitive_cube_add, Host.primitive_add.
  cbv zeta. cbn [fst snd].
  fold (building_height_at cfg env (rng w)).
  set (h := building_height_at cfg env (rng w)).
  set (w1 := set_rng (S (rng w)) w).
  set (id := Host.fresh_id w1).
  set (o := Object id _ _ _ _ _ _ _ _).
  set (w2 := set_mode OBJECT _).
  assert (Hid : id = Host.fresh_id w) by reflexivity.
  assert (H2 : objects w2 = map (set_select false) (objects w) ++ [o]) by reflexivity.
  assert (Hf : fresh id (map (set_select false) (objects w)))
    by (rewrite Hid; apply fresh_map_select, fresh_id_fresh).
  set (w3 := Host.rename_object id _ w2).
  assert (H3 : exists n, objects w3 = map (set_select false) (objects w) ++ [set_name n o]).
  { eexists. unfold w3, Host.rename_object.
    apply (update_object_last id _ w2 _ o H2 Hf eq_refl). }
  destruct H3 as [n H3].
  set (w4 := update_object id _ w3).
  set (o4 := Host.assign_dimensions
               (Vec3 (building_size_x cfg) (building_size_y cfg) h) (set_name n o)).
  assert (H4 : objects w4 = map (set_select false) (objects w) ++ [o4]).
  { unfold w4. apply (update_object_last id _ w3 _ _ H3 Hf eq_refl). }
  rewrite (get_object_last id w4 _ o4 H4 Hf eq_refl).
  cbn [users_collection o4 Host.assign_dimensions set_dimensions set_name o fold_left].
  change (active_collection w1) with (active_collection w).
  set (w5 := Host.unlink_object (active_collection w) id w4).
  assert (H5 : objects w5 = map (set_select false) (objects w)
                 ++ [set_users_collection
                       (filter (fun c' => negb (coll_ref_eqb c' (active_collection w)))) o4]).
  { unfold w5, Host.unlink_object.
    apply (update_object_last id _ w4 _ _ H4 Hf eq_refl). }
  eexists. eexists.
  split; [reflexivity|].
  split.
  { unfold Host.link_object. apply (update_object_last id _ w5 _ _ H5 Hf eq_refl). }
  repeat split; try reflexivity.
  cbn [users_collection set_users_collection o4 Host.assign_dimensions set_dimensions
       set_name o filter app].
  change (active_collection w1) with (active_collection w).
  rewrite Hac. reflexivity.
Qed.

Lemma map_deselect_idem (os : list object) :
  map (set_select false) (map (set_select false) os) = map (set_select false) os.
Proof. rewrite map_map. apply map_ext. intros o. reflexivity. Qed.

Lemma same_data_refl (w : world) : same_data w w.
Proof. unfold same_data. repeat split; reflexivity. Qed.

Lemma same_data_trans (w1 w2 w3 : world) :
  same_data w1 w2 -> same_data w2 w3 -> same_data w1 w3.
Proof.
  unfold same_data. intros (a1 & a2 & a3 & a4 & a5 & a6) (b1 & b2 & b3 & b4 & b5 & b6).
  repeat split; congruence.
Qed.

(** The whole loop, by induction on the vertices still to visit. *)
Lemma place_buildings_fold (cfg : config) (env : host_env) (t : object)
    (coll : string) (vs : list vec3) :
  forall (w : world) (c : nat),
  exists bs,
    map (set_select false)
        (objects (fst (fold_left (place_building cfg env t coll) vs (w, c)))) =
      map (set_select false) (objects w) ++ bs /\
    map geometry bs = planned cfg env (rng w) (map (Host.matrix_world_apply t) vs) /\
    Forall (fun b => ob_type b = MESH /\ users_collection b = [Named coll]) bs /\
    same_data w (fst (fold_left (place_building cfg env t coll) vs (w, c))).
Proof.
  induction vs as [|v vs IH]; intros w c.
  - exists []. cbn [fold_left fst map planned]. rewrite app_nil_r.
    split; [reflexivity|]. split; [reflexivity|].
    split; [constructor | apply same_data_refl].
  - destruct (place_building_step cfg env t coll w c v)
      as (b & w1 & Hstep & Hobj & _ & Hloc & Hdim & Hty & Hcoll & Hrng & Hsame).
    cbn [fold_left]. rewrite Hstep.
    destruct (IH w1 (S c)) as (bs & Hbs & Hgeo & Hall & Hsame').
    exists (set_select false b :: bs).
    split.
    { rewrite Hbs, Hobj, map_app, map_deselect_idem, <- app_assoc. reflexivity. }
    split.
    { cbn [map planned]. rewrite Hgeo, Hrng. f_equal.
      unfold geometry. cbn [location dimensions set_select]. now rewrite Hloc, Hdim. }
    split.
    { constructor; [|exact Hall]. split; [exact Hty | exact Hcoll]. }
    eapply same_data_trans; eassumption.
Qed.

(** Reading a list of added objects through a view that ignores the
    selection. *)
Lemma added_objects_view {A : Type} (p : object -> A) (os os' bs : list object) :
  (forall o, p (set_select false o) = p o) ->
  map (set_select false) os' = map (set_select false) os ++ bs ->
  map p (skipn (List.length os) os') = map p bs.
Proof.
  intros Hp H.
  assert (Hm : forall l, map p (map (set_select false) l) = map p l).
  { intros l. rewrite map_map. apply map_ext. exact Hp. }
  rewrite <- skipn_map, <- (Hm os'), H, map_app, skipn_app.
  rewrite !length_map, Nat.sub_diag, skipn_all2 by (rewrite !length_map; lia).
  reflexivity.
Qed.

(** What [create_buildings] does to the objects of the scene, whichever
    way it ends. *)
Lemma create_buildings_objects (cfg : config) (env : host_env)
    (terrain_obj : option object) (w : world) :
  exists bs,
    map (set_select false) (objects (fst (create_buildings cfg env terrain_obj w))) =
      map (set_select false) (objects w) ++ bs /\
    map geometry bs = planned cfg env (rng w) (building_sites cfg terrain_obj) /\
    Forall (fun b => ob_type b = MESH) bs /\
    lights (fst (create_buildings cfg env terrain_obj w)) = lights w /\
    cameras (fst (create_buildings cfg env terrain_obj w)) = cameras w /\
    materials (fst (create_buildings cfg env terrain_obj w)) = materials w.
Proof.
  assert (Hnil : forall w', objects w' = objects w -> lights w' = lights w ->
            cameras w' = cameras w -> materials w' = materials w ->
            planned cfg env (rng w) [] = [] ->
            exists bs,
              map (set_select false) (objects w') = map (set_select false) (objects w) ++ bs /\
              map geometry bs = [] /\ Forall (fun b => ob_type b = MESH) bs /\
              lights w' = lights w /\ cameras w' = cameras w /\ materials w' = materials w).
  { intros w' Ho Hl Hc Hm _. exists []. rewrite Ho, app_nil_r. repeat split; auto. }
  unfold create_buildings, building_sites.
  destruct terrain_obj as [t|]; [|apply Hnil; reflexivity].
  destruct (ob_data t) as [m| | | | |]; try (apply Hnil; reflexivity).
  destruct (Nat.eqb (x_subdivisions cfg) 0 || Nat.eqb (y_subdivisions cfg) 0);
    [apply Hnil; reflexivity|].
  destruct (Host.mem_string buildings_collection_name (Host.collection_names w)).
  - cbn [fst].
    destruct (place_buildings_fold cfg env t buildings_collection_name (vertices m) w 0)
      as (bs & Hbs & Hgeo & Hall & Hsame).
    exists bs. split; [exact Hbs|]. split; [exact Hgeo|].
    split; [eapply Forall_impl; [|exact Hall]; intros b Hb; apply Hb|].
    destruct Hsame as (_ & _ & Hl & Hc & Hm & _). auto.
  - unfold Host.collections_new. cbv zeta. cbn [fst].
    set (w1 := set_scene_children _ _).
    destruct (place_buildings_fold cfg env t
                (Host.unique_name (Host.collection_names w) buildings_collection_name)
                (vertices m) w1 0)
      as (bs & Hbs & Hgeo & Hall & Hsame).
    exists bs. split; [exact Hbs|]. split; [exact Hgeo|].
    split; [eapply Forall_impl; [|exact Hall]; intros b Hb; apply Hb|].
    destruct Hsame as (_ & _ & Hl & Hc & Hm & _). auto.
Qed.

Lemma buildings_placed_geometry (cfg : config) (env : host_env)
    (terrain_obj : option object) (w : world) :
  map geometry (buildings_placed cfg env terrain_obj w) =
  planned cfg env (rng w) (building_sites cfg terrain_obj).
Proof.
  destruct (create_buildings_objects cfg env terrain_obj w) as (bs & Hbs & Hgeo & _).
  unfold buildings_placed.
  rewrite (added_objects_view geometry _ _ bs); [exact Hgeo| reflexivity | exact Hbs].
Qed.

(** Each added building against the site it stands on. *)
Definition built_on (cfg : config) (s : vec3) (b : object) : Prop :=
  exists h,
    location b = Vec3 (vx s) (vy s) (building_center_z cfg (vz s) h) /\
    dimensions b = Vec3 (Rabs (building_size_x cfg)) (Rabs (building_size_y cfg)) (Rabs h).

Lemma planned_built_on (cfg : config) (env : host_env) (sites : list vec3) :
  forall (k : nat) (bs : list object),
  map geometry bs = planned cfg env k sites ->
  Forall2 (built_on cfg) sites bs.
Proof.
  induction sites as [|s sites IH]; intros k [|b bs] H; try discriminate.
  - constructor.
  - cbn [map planned] in H. unfold geometry at 1 in H. injection H as Hl Hd Hrest.
    constructor; [|eapply IH; exact Hrest].
    exists (building_height_at cfg env k). split; assumption.
Qed.

Lemma planned_heights (cfg : config) (env : host_env) (sites : list vec3) :
  forall (k : nat) (bs : list object),
  map geometry bs = planned cfg env k sites ->
  map (fun b => vz (dimensions b)) bs =
  map (fun i => Rabs (building_height_at cfg env i)) (seq k (List.length sites)).
Proof.
  induction sites as [|s sites IH]; intros k [|b bs] H; try discriminate.
  - reflexivity.
  - cbn [map planned] in H. unfold geometry at 1 in H. injection H as _ Hd Hrest.
    cbn [List.length seq map]. rewrite (IH (S k) bs Hrest). now rewrite Hd.
Qed.

Lemma cell_width_nonneg (g : R) (n : nat) : 0 <= g -> n <> 0%nat -> 0 <= g / INR n.
Proof.
  intros Hg Hn. apply Rmult_le_pos; [exact Hg|].
  left. apply Rinv_0_lt_compat. apply lt_0_INR. lia.
Qed.

Lemma cell_width_pos (g : R) (n : nat) : 0 < g -> n <> 0%nat -> 0 < g / INR n.
Proof.
  intros Hg Hn. apply Rmult_lt_0_compat; [exact Hg|].
  apply Rinv_0_lt_compat. apply lt_0_INR. lia.
Qed.

(** With unit samples and a minimum that is neither negative nor above the
    maximum, no height drawn is negative. *)
Lemma building_height_nonneg (cfg : config) (env : host_env) (k : nat) :
  0 <= building_min_height cfg <= building_max_height cfg ->
  (forall i, 0 <= rnd env i < 1) ->
  0 <= building_height_at cfg env k.
Proof.
  intros [H0 Hm] Hr. unfold building_height_at. specialize (Hr k). nra.
Qed.

Lemma planned_heights_nonneg (cfg : config) (env : host_env) (sites : list vec3) :
  (forall i, 0 <= building_height_at cfg env i) ->
  forall (k : nat) (bs : list object),
  map geometry bs = planned cfg env k sites ->
  Forall2 (fun s b => bottom_z b = building_base_z cfg (vz s) /\
                      vz (location b) = building_base_z cfg (vz s) + vz (dimensions b) / 2)
    sites bs /\
  map (fun b => vz (dimensions b)) bs =
    map (building_height_at cfg env) (seq k (List.length sites)).
Proof.
  intros Hh.
  induction sites as [|s sites IH]; intros k [|b bs] H; try discriminate.
  - split; [constructor | reflexivity].
  - cbn [map planned] in H. unfold geometry at 1 in H. injection H as Hl Hd Hrest.
    destruct (IH (S k) bs Hrest) as [IH1 IH2].
    pose proof (Hh k) as Hk.
    assert (Hz : vz (dimensions b) = building_height_at cfg env k)
      by (rewrite Hd; cbn [vz]; now apply Rabs_pos_eq).
    split.
    + constructor; [|exact IH1].
      unfold bottom_z. rewrite Hz, Hl. cbn [vz]. unfold building_center_z. split; lra.
    + cbn [List.length seq map]. now rewrite IH2, Hz.
Qed.

Lemma buildings_built_on (cfg : config) (env : host_env)
    (terrain_obj : option object) (w : world) :
  Forall2 (built_on cfg) (building_sites cfg terrain_obj)
    (buildings_placed cfg env terrain_obj w).
Proof.
  eapply planned_built_on. apply buildings_placed_geometry.
Qed.

Lemma Forall2_map_eq {A B C : Type} (f : A -> C) (g : B -> C) (l1 : list A) (l2 : list B) :
  Forall2 (fun a b => f a = g b) l1 l2 -> map f l1 = map g l2.
Proof. induction 1; cbn [map]; congruence. Qed.

(** C5, as amended.  When no height drawn is negative (as with a minimum
    height that is not negative and not above the maximum), each building
    stands on its vertex of the terrain: its bottom face is at the terrain
    height there less the embed depth, its centre is that base plus half its
    height, and its height is the one drawn for it.  The bases are then the
    same for every such stream of random samples. *)
Theorem building_base_below_terrain (cfg : config) (env env' : host_env)
    (terrain_obj : option object) (w : world) :
  (forall i, 0 <= building_height_at cfg env i) ->
  (forall i, 0 <= building_height_at cfg env' i) ->
  Forall2
    (fun s b =>
       building_base_z cfg (vz s) = vz s - building_embed_depth cfg /\
       bottom_z b = building_base_z cfg (vz s) /\
       vz (location b) = building_base_z cfg (vz s) + vz (dimensions b) / 2)
    (building_sites cfg terrain_obj)
    (buildings_placed cfg env terrain_obj w) /\
  map (fun b => vz (dimensions b)) (buildings_placed cfg env terrain_obj w) =
    map (building_height_at cfg env)
        (seq (rng w) (List.length (building_sites cfg terrain_obj))) /\
  map bottom_z (buildings_placed cfg env' terrain_obj w) =
    map bottom_z (buildings_placed cfg env terrain_obj w).
Proof.
  intros Hr Hr'.
  destruct (planned_heights_nonneg cfg env (building_sites cfg terrain_obj) Hr
              (rng w) _ (buildings_placed_geometry cfg env terrain_obj w)) as [H1 H2].
  destruct (planned_heights_nonneg cfg env' (building_sites cfg terrain_obj) Hr'
              (rng w) _ (buildings_placed_geometry cfg env' terrain_obj w)) as [H1' _].
  split; [|split; [exact H2|]].
  - eapply Forall2_impl; [|exact H1].
    intros s b [Hb Hc]. split; [reflexivity|]. split; assumption.
  - transitivity (map (fun s => building_base_z cfg (vz s)) (building_sites cfg terrain_obj)).
    + symmetry. apply Forall2_map_eq.
      eapply Forall2_impl; [|exact H1']. intros s b [Hb _]. now symmetry.
    + apply Forall2_map_eq.
      eapply Forall2_impl; [|exact H1]. intros s b [Hb _]. now symmetry.
Qed.

Lemma building_base_below_terrain_witness :
  map bottom_z (city_buildings default_config constant_env empty_world) =
  map (fun s => vz s - building_embed_depth default_config)
      (building_sites default_config
         (fst (create_terrain default_config "Terrain" empty_world))).
Proof.
  assert (Hr : forall i, 0 <= building_height_at default_config constant_env i)
    by (intros i; unfold building_height_at; simpl; lra).
  destruct (building_base_below_terrain default_config constant_env constant_env
              (fst (create_terrain default_config "Terrain" empty_world))
              (snd (create_terrain default_config "Terrain" empty_world)) Hr Hr)
    as (H & _ & _).
  unfold city_buildings. symmetry. apply Forall2_map_eq.
  eapply Forall2_impl; [|exact H].
  intros s b (Hb & Hz & _). rewrite Hz. exact Hb.
Defined.

(** How many buildings a run places. *)
Definition sites_count (cfg : config) : nat :=
  if Nat.eqb (x_subdivisions cfg) 0 || Nat.eqb (y_subdivisions cfg) 0 then 0
  else S (y_subdivisions cfg) * S (x_subdivisions cfg).

Lemma building_sites_count (cfg : config) (name : string) (w : world) :
  List.length (building_sites cfg (fst (create_terrain cfg name w))) = sites_count cfg.
Proof.
  destruct (create_terrain_result cfg name w) as (t & Ht & _ & _ & Hd & _).
  rewrite Ht. unfold building_sites, sites_count. rewrite Hd.
  destruct (Nat.eqb (x_subdivisions cfg) 0) eqn:Ex; [reflexivity|].
  destruct (Nat.eqb (y_subdivisions cfg) 0) eqn:Ey; [reflexivity|].
  cbn [orb vertices]. rewrite !length_map. unfold host_grid.
  rewrite grid_vertices_length.
  apply Nat.eqb_neq in Ex. apply Nat.eqb_neq in Ey.
  rewrite !Nat.max_r by lia. reflexivity.
Qed.

(** The buildings of a run when every sample gives the same height [h]. *)
Lemma planned_constant (cfg : config) (env : host_env) (h : R) (sites : list vec3) :
  (forall k, building_height_at cfg env k = h) ->
  forall (k : nat) (bs : list object),
  map geometry bs = planned cfg env k sites ->
  Forall2 (fun s b => vz (location b) = building_center_z cfg (vz s) h /\
                      vz (dimensions b) = Rabs h)
    sites bs.
Proof.
  intros Hh. induction sites as [|s sites IH]; intros k [|b bs] H; try discriminate.
  - constructor.
  - cbn [map planned] in H. unfold geometry at 1 in H. injection H as Hl Hd Hrest.
    constructor; [|eapply IH; exact Hrest].
    rewrite Hl, Hd, Hh. split; reflexivity.
Qed.

(** The sites of a run on a terrain without relief are at height 0. *)
Lemma city_sites_flat (cfg : config) (w : world) :
  terrain_height_scale cfg = 0 ->
  Forall (fun s => vz s = 0)
    (building_sites cfg (fst (create_terrain cfg "Terrain" w))).
Proof.
  intros Hs.
  destruct (create_terrain_result cfg "Terrain" w) as (t & Ht & _ & _ & Hd & Hloc).
  rewrite Ht. unfold building_sites. rewrite Hd.
  destruct (_ || _); [constructor|].
  cbn [vertices]. apply Forall_map, Forall_map, Forall_forall. intros p _.
  unfold Host.matrix_world_apply, vec3_add, displace, set_z, terrain_z.
  rewrite Hloc, Hs. cbn [vz vec3_zero]. lra.
Qed.

Lemma city_sites_count (cfg : config) (env : host_env) (w : world) :
  List.length (city_buildings cfg env w) = sites_count cfg.
Proof.
  unfold city_buildings.
  rewrite <- (Forall2_length (buildings_built_on cfg env _ _)).
  apply building_sites_count.
Qed.

(** C5 as the specification words it does not hold for every building
    height: with heights drawn between -3 and -1 the height drawn is -2, the
    box read back from the host is 2 high around its centre at -1.1, and its
    bottom face is at -2.1, not at the terrain height 0 less the embed depth
    0.1. *)
Lemma negative_height_sinks_the_base :
  List.length (city_buildings sunken_config constant_env empty_world) = 4%nat /\
  Forall2
    (fun s b =>
       vz s - building_embed_depth sunken_config = - (1 / 10) /\
       vz (dimensions b) = 2 /\
       bottom_z b = - (21 / 10))
    (building_sites sunken_config (fst (create_terrain sunken_config "Terrain" empty_world)))
    (city_buildings sunken_config constant_env empty_world).
Proof.
  split; [apply city_sites_count|].
  assert (Hh : forall k, building_height_at sunken_config constant_env k = -2)
    by (intros k; unfold building_height_at; simpl; lra).
  pose proof (planned_constant sunken_config constant_env (-2) _ Hh _ _
                (buildings_placed_geometry sunken_config constant_env
                   (fst (create_terrain sunken_config "Terrain" empty_world))
                   (snd (create_terrain sunken_config "Terrain" empty_world)))) as H.
  pose proof (city_sites_flat sunken_config empty_world eq_refl) as Hflat.
  unfold city_buildings.
  revert H Hflat.
  generalize (buildings_placed sunken_config constant_env
                (fst (create_terrain sunken_config "Terrain" empty_world))
                (snd (create_terrain sunken_config "Terrain" empty_world))).
  generalize (building_sites sunken_config
                (fst (create_terrain sunken_config "Terrain" empty_world))).
  intros sites bs H Hflat.
  induction H as [|s b sites bs [Hl Hd] _ IH]; constructor.
  - apply Forall_inv in Hflat. unfold bottom_z. rewrite Hl, Hd, Hflat.
    unfold building_center_z, building_base_z.
    replace (Rabs (-2)) with 2 by (rewrite Rabs_left; lra).
    simpl. repeat split; lra.
  - apply IH. now apply Forall_inv_tail in Hflat.
Qed.

(** The sizes read back from every building, whatever the parameters. *)
Lemma buildings_dimensions (cfg : config) (env : host_env)
    (terrain_obj : option object) (w : world) :
  Forall
    (fun b =>
       vx (dimensions b) = Rabs (cell_width_x cfg * (1 - street_width_factor cfg)) /\
       vy (dimensions b) = Rabs (cell_width_y cfg * (1 - street_width_factor cfg)))
    (buildings_placed cfg env terrain_obj w).
Proof.
  pose proof (buildings_built_on cfg env terrain_obj w) as H.
  induction H as [|s b sites bs Hb _ IH]; constructor; [|exact IH].
  destruct Hb as (h & _ & Hd). rewrite Hd. split; reflexivity.
Qed.

(** C6, as amended.  Every building's footprint is, per axis, the
    magnitude of the cell width times (1 - street_width_factor), the cell
    width being the extent divided by the subdivision count of the axis.  It
    is that product itself when the extent is not negative and the factor
    is at most 1, and 0 on both axes with a factor of 1.  There is one
    building per site. *)
Theorem building_footprint (cfg : config) (env : host_env)
    (terrain_obj : option object) (w : world) :
  cell_width_x cfg = grid_size cfg / INR (x_subdivisions cfg) /\
  cell_width_y cfg = grid_size cfg / INR (y_subdivisions cfg) /\
  List.length (buildings_placed cfg env terrain_obj w) =
    List.length (building_sites cfg terrain_obj) /\
  Forall
    (fun b =>
       vx (dimensions b) = Rabs (cell_width_x cfg * (1 - street_width_factor cfg)) /\
       vy (dimensions b) = Rabs (cell_width_y cfg * (1 - street_width_factor cfg)))
    (buildings_placed cfg env terrain_obj w) /\
  (0 <= grid_size cfg -> street_width_factor cfg <= 1 ->
   Forall
     (fun b =>
        vx (dimensions b) = cell_width_x cfg * (1 - street_width_factor cfg) /\
        vy (dimensions b) = cell_width_y cfg * (1 - street_width_factor cfg))
     (buildings_placed cfg env terrain_obj w)) /\
  (street_width_factor cfg = 1 ->
   Forall (fun b => vx (dimensions b) = 0 /\ vy (dimensions b) = 0)
     (buildings_placed cfg env terrain_obj w)).
Proof.
  pose proof (buildings_dimensions cfg env terrain_obj w) as Hall.
  split; [reflexivity|]. split; [reflexivity|].
  split; [symmetry; eapply Forall2_length; apply buildings_built_on|].
  split; [exact Hall|]. split.
  - intros Hg Hf.
    destruct (Nat.eq_dec (x_subdivisions cfg) 0) as [Hx|Hx];
      [assert (E : building_sites cfg terrain_obj = [])
         by (unfold building_sites; destruct terrain_obj as [t|]; [|reflexivity];
             destruct (ob_data t); try reflexivity;
             apply Nat.eqb_eq in Hx; now rewrite Hx);
       pose proof (Forall2_length (buildings_built_on cfg env terrain_obj w)) as Hlen;
       rewrite E in Hlen; symmetry in Hlen; apply length_zero_iff_nil in Hlen;
       rewrite Hlen; constructor|].
    destruct (Nat.eq_dec (y_subdivisions cfg) 0) as [Hy|Hy];
      [assert (E : building_sites cfg terrain_obj = [])
         by (unfold building_sites; destruct terrain_obj as [t|]; [|reflexivity];
             destruct (ob_data t); try reflexivity;
             apply Nat.eqb_eq in Hy; rewrite Hy; now rewrite orb_true_r);
       pose proof (Forall2_length (buildings_built_on cfg env terrain_obj w)) as Hlen;
       rewrite E in Hlen; symmetry in Hlen; apply length_zero_iff_nil in Hlen;
       rewrite Hlen; constructor|].
    pose proof (cell_width_nonneg (grid_size cfg) (x_subdivisions cfg) Hg Hx) as Hcx.
    pose proof (cell_width_nonneg (grid_size cfg) (y_subdivisions cfg) Hg Hy) as Hcy.
    fold (cell_width_x cfg) in Hcx. fold (cell_width_y cfg) in Hcy.
    eapply Forall_impl; [|exact Hall].
    intros b [Hx' Hy']. rewrite Hx', Hy'.
    split; apply Rabs_pos_eq; nra.
  - intros H1. eapply Forall_impl; [|exact Hall].
    intros b [Hx Hy]. rewrite Hx, Hy, H1.
    replace (1 - 1) with 0 by lra. rewrite !Rmult_0_r, Rabs_R0. split; reflexivity.
Qed.

Lemma building_footprint_witness :
  Forall (fun b => vx (dimensions b) = 1 / 2 /\ vy (dimensions b) = 1 / 3)
    (city_buildings default_config constant_env empty_world).
Proof.
  assert (Hg : 0 <= grid_size default_config) by (simpl; lra).
  assert (Hf : street_width_factor default_config <= 1) by (simpl; lra).
  destruct (building_footprint default_config constant_env
              (fst (create_terrain default_config "Terrain" empty_world))
              (snd (create_terrain default_config "Terrain" empty_world)))
    as (_ & _ & _ & _ & H & _).
  unfold city_buildings.
  eapply Forall_impl; [|exact (H Hg Hf)].
  intros b [Hx Hy]. rewrite Hx, Hy. unfold cell_width_x, cell_width_y.
  simpl. split; lra.
Defined.

(** C6 as the specification words it does not hold for every street
    factor: with a factor of 3/2 on cells 20 wide the product
    cell width * (1 - factor) is -10, and each of the four buildings reads
    back 10 on both axes. *)
Lemma footprint_is_a_magnitude :
  cell_width_x wide_street_config * (1 - street_width_factor wide_street_config) = -10 /\
  cell_width_y wide_street_config * (1 - street_width_factor wide_street_config) = -10 /\
  List.length (city_buildings wide_street_config constant_env empty_world) = 4%nat /\
  Forall (fun b => vx (dimensions b) = 10 /\ vy (dimensions b) = 10)
    (city_buildings wide_street_config constant_env empty_world).
Proof.
  assert (Hx : cell_width_x wide_street_config
               * (1 - street_width_factor wide_street_config) = -10)
    by (unfold cell_width_x; simpl; lra).
  assert (Hy : cell_width_y wide_street_config
               * (1 - street_width_factor wide_street_config) = -10)
    by (unfold cell_width_y; simpl; lra).
  split; [exact Hx|]. split; [exact Hy|]. split; [apply city_sites_count|].
  unfold city_buildings.
  eapply Forall_impl; [|apply buildings_dimensions].
  intros b [Hbx Hby]. rewrite Hbx, Hby, Hx, Hy.
  replace (Rabs (-10)) with 10 by (rewrite Rabs_left; lra). split; reflexivity.
Qed.

(** ** Layout of the buildings on the grid *)

Lemma Forall2_map_left {A B C : Type} (f : A -> B) (P : B -> C -> Prop)
    (l : list A) (l' : list C) :
  Forall2 P (map f l) l' -> Forall2 (fun a c => P (f a) c) l l'.
Proof.
  revert l'. induction l as [|a l IH]; intros l' H; inversion H; subst; constructor; auto.
Qed.

Lemma grid_vertices_by_index (nx ny : nat) (size : R) :
  Host.grid_vertices nx ny size =
  map (fun ij => Vec3 (Host.grid_coord nx size (fst ij)) (Host.grid_coord ny size (snd ij)) 0)
      (grid_indices nx ny).
Proof.
  unfold Host.grid_vertices, grid_indices.
  induction (seq 0 (S ny)) as [|j l IH]; [reflexivity|].
  cbn [flat_map]. rewrite map_app, IH, map_map. reflexivity.
Qed.

Lemma grid_indices_in (nx ny : nat) (ij : nat * nat) :
  In ij (grid_indices nx ny) -> (fst ij <= nx)%nat /\ (snd ij <= ny)%nat.
Proof.
  unfold grid_indices. rewrite in_flat_map. intros (j & Hj & Hij).
  apply in_map_iff in Hij. destruct Hij as (i & <- & Hi).
  apply in_seq in Hj. apply in_seq in Hi. cbn [fst snd]. lia.
Qed.

Lemma grid_indices_NoDup (nx ny : nat) : NoDup (grid_indices nx ny).
Proof.
  unfold grid_indices.
  assert (H : forall l : list nat, NoDup l ->
            NoDup (flat_map (fun j => map (fun i => (i, j)) (seq 0 (S nx))) l)).
  { induction 1 as [|j l Hj Hl IH]; [constructor|].
    cbn [flat_map]. apply NoDup_app.
    - apply NoDup_map_NoDup_ForallPairs; [|apply seq_NoDup].
      intros a b _ _ E. now injection E.
    - exact IH.
    - intros [i' j'] Hin Hin'.
      apply in_map_iff in Hin. destruct Hin as (i & E & _). injection E as _ <-.
      apply in_flat_map in Hin'. destruct Hin' as (j2 & Hj2 & Hin').
      apply in_map_iff in Hin'. destruct Hin' as (i2 & E2 & _). injection E2 as _ <-.
      contradiction. }
  apply H, seq_NoDup.
Qed.

(** Boxes of one size at two different vertices of a grid whose lines are
    at least that size apart share no ground. *)
Lemma boxes_apart (o c s xa xb : R) (i i' : nat) :
  0 <= c -> s <= c -> i <> i' ->
  xa = o + INR i * c -> xb = o + INR i' * c ->
  ~ (xa - s / 2 < xb + s / 2 /\ xb - s / 2 < xa + s / 2).
Proof.
  intros Hc Hs Hne Ha Hb [H1 H2]. subst xa xb.
  assert (Hd : INR i - INR i' >= 1 \/ INR i' - INR i >= 1).
  { destruct (Nat.lt_total i i') as [Hlt | [Heq | Hgt]]; [right | contradiction | left].
    - assert (S i <= i')%nat as Hle%le_INR by lia. rewrite S_INR in Hle. lra.
    - assert (S i' <= i)%nat as Hle%le_INR by lia. rewrite S_INR in Hle. lra. }
  destruct Hd as [Hd | Hd]; nra.
Qed.

Lemma Forall2_In_left {A B : Type} (P : A -> B -> Prop) (l : list A) (l' : list B) :
  Forall2 P l l' -> Forall2 (fun a b => In a l /\ P a b) l l'.
Proof.
  induction 1 as [|a b l l' Hab _ IH]; constructor.
  - split; [now left | exact Hab].
  - eapply Forall2_impl; [|exact IH]. intros a' b' [Hin HP]. split; [now right | exact HP].
Qed.

Lemma ForallOrdPairs_Forall2 {A B : Type} (R : A -> B -> Prop)
    (P : A -> A -> Prop) (Q : B -> B -> Prop) :
  (forall a a' b b', R a b -> R a' b' -> P a a' -> Q b b') ->
  forall l l', Forall2 R l l' -> ForallOrdPairs P l -> ForallOrdPairs Q l'.
Proof.
  intros HPQ l l' H. induction H as [|a b l l' Hab Hll IH]; intros HP.
  - constructor.
  - inversion HP as [|a0 l0 Hhead Htail]; subst. constructor; [|now apply IH].
    clear IH HP Htail. induction Hll as [|a' b' l l' Hab' _ IH']; constructor.
    + apply (HPQ a a' b b' Hab Hab'). now apply Forall_inv in Hhead.
    + apply IH'. now apply Forall_inv_tail in Hhead.
Qed.

(** No building when a subdivision count is zero. *)
Lemma city_buildings_none (cfg : config) (env : host_env) (w : world) :
  x_subdivisions cfg = 0%nat \/ y_subdivisions cfg = 0%nat ->
  city_buildings cfg env w = [].
Proof.
  intros H0. unfold city_buildings.
  pose proof (buildings_placed_geometry cfg env (fst (create_terrain cfg "Terrain" w))
                (snd (create_terrain cfg "Terrain" w))) as Hg.
  destruct (create_terrain_result cfg "Terrain" w) as (t & Ht & _ & _ & Hd & _).
  rewrite Ht in *. unfold building_sites in Hg. rewrite Hd in Hg.
  assert (Hguard : Nat.eqb (x_subdivisions cfg) 0 || Nat.eqb (y_subdivisions cfg) 0 = true).
  { destruct H0 as [-> | ->]; [reflexivity | apply orb_true_r]. }
  rewrite Hguard in Hg. cbn [planned] in Hg.
  now apply map_eq_nil in Hg.
Qed.

(** Otherwise one building per grid vertex, centred on it, all of one size. *)
Lemma city_buildings_layout (cfg : config) (env : host_env) (w : world) :
  x_subdivisions cfg <> 0%nat -> y_subdivisions cfg <> 0%nat -> 0 <= grid_size cfg ->
  Forall2
    (fun ij b =>
       on_grid cfg ij b /\
       vx (dimensions b) = Rabs (building_size_x cfg) /\
       vy (dimensions b) = Rabs (building_size_y cfg))
    (grid_indices (x_subdivisions cfg) (y_subdivisions cfg))
    (city_buildings cfg env w).
Proof.
  intros Hx Hy Hg. unfold city_buildings.
  pose proof (buildings_built_on cfg env (fst (create_terrain cfg "Terrain" w))
                (snd (create_terrain cfg "Terrain" w))) as Hb.
  destruct (create_terrain_result cfg "Terrain" w) as (t & Ht & _ & _ & Hd & Hloc).
  rewrite Ht in *. unfold building_sites in Hb. rewrite Hd in Hb.
  apply Nat.eqb_neq in Hx as Hx'. apply Nat.eqb_neq in Hy as Hy'.
  rewrite Hx', Hy' in Hb. cbn [orb vertices] in Hb.
  unfold host_grid in Hb.
  rewrite (Nat.max_r 1 (x_subdivisions cfg)), (Nat.max_r 1 (y_subdivisions cfg)) in Hb by lia.
  rewrite (Rmax_right 0 (grid_size cfg)) in Hb by exact Hg.
  rewrite grid_vertices_by_index, !map_map in Hb.
  apply Forall2_map_left, Forall2_In_left in Hb.
  eapply Forall2_impl; [|exact Hb].
  intros [i j] b [Hin (h & Hl & Hdim)].
  apply grid_indices_in in Hin. cbn [fst snd] in Hin.
  assert (Hnx : INR (x_subdivisions cfg) <> 0) by (apply not_0_INR; exact Hx).
  assert (Hny : INR (y_subdivisions cfg) <> 0) by (apply not_0_INR; exact Hy).
  rewrite Hdim. cbn [vx vy].
  split; [|split; reflexivity].
  unfold on_grid. cbn [fst snd]. rewrite Hl.
  unfold Host.matrix_world_apply, vec3_add, displace, set_z. rewrite Hloc.
  cbn [vx vy vec3_zero]. unfold Host.grid_coord, cell_width_x, cell_width_y.
  repeat split; try lia; cbn [fst snd]; field; assumption.
Qed.

(** C4, as amended.  With a street width factor above 0 and below 2 and an
    extent that is not negative, no two of the buildings of a run overlap:
    each is centred at a grid vertex, the vertices are one cell width apart
    on each axis, and (for a positive extent) each footprint is strictly
    smaller than the cell width. *)
Theorem buildings_do_not_overlap (cfg : config) (env : host_env) (w : world) :
  0 <= grid_size cfg -> 0 < street_width_factor cfg < 2 ->
  ForallOrdPairs (fun a b => ~ footprints_overlap a b) (city_buildings cfg env w) /\
  Forall (fun b => exists ij, on_grid cfg ij b) (city_buildings cfg env w) /\
  (0 < grid_size cfg ->
   Forall (fun b => vx (dimensions b) < cell_width_x cfg /\
                    vy (dimensions b) < cell_width_y cfg)
     (city_buildings cfg env w)).
Proof.
  intros Hg Hf.
  destruct (Nat.eq_dec (x_subdivisions cfg) 0) as [Hx|Hx];
    [rewrite (city_buildings_none cfg env w (or_introl Hx));
     repeat split; intros; constructor|].
  destruct (Nat.eq_dec (y_subdivisions cfg) 0) as [Hy|Hy];
    [rewrite (city_buildings_none cfg env w (or_intror Hy));
     repeat split; intros; constructor|].
  pose proof (city_buildings_layout cfg env w Hx Hy Hg) as HL.
  pose proof (cell_width_nonneg (grid_size cfg) (x_subdivisions cfg) Hg Hx) as Hcx.
  pose proof (cell_width_nonneg (grid_size cfg) (y_subdivisions cfg) Hg Hy) as Hcy.
  fold (cell_width_x cfg) in Hcx. fold (cell_width_y cfg) in Hcy.
  assert (Hsx : Rabs (building_size_x cfg) <= cell_width_x cfg)
    by (unfold building_size_x; apply Rabs_le; nra).
  assert (Hsy : Rabs (building_size_y cfg) <= cell_width_y cfg)
    by (unfold building_size_y; apply Rabs_le; nra).
  split; [|split].
  - eapply (ForallOrdPairs_Forall2 _ (fun p q : nat * nat => p <> q));
      [| exact HL | apply NoDup_iff_ForallOrdPairs, grid_indices_NoDup].
    intros [i j] [i' j'] a b ((_ & _ & Hax & Hay) & Hdx & Hdy)
           ((_ & _ & Hbx & Hby) & Hdx' & Hdy') Hne (O1 & O2 & O3 & O4).
    cbn [fst snd] in *.
    unfold lo_x, hi_x, lo_y, hi_y in *.
    rewrite Hdx, Hdy, Hdx', Hdy' in *.
    destruct (Nat.eq_dec i i') as [Ei|Ei].
    + assert (Ej : j <> j') by (intros ->; apply Hne; now rewrite Ei).
      apply (boxes_apart (- grid_size cfg / 2) (cell_width_y cfg)
               (Rabs (building_size_y cfg))
               (vy (location a)) (vy (location b)) j j' Hcy Hsy Ej Hay Hby).
      split; assumption.
    + apply (boxes_apart (- grid_size cfg / 2) (cell_width_x cfg)
               (Rabs (building_size_x cfg))
               (vx (location a)) (vx (location b)) i i' Hcx Hsx Ei Hax Hbx).
      split; assumption.
  - apply Forall2_flip in HL. clear -HL.
    induction HL as [|b ij bs ijs Hb _ IH]; constructor; [|exact IH].
    exists ij. apply Hb.
  - intros Hpos.
    pose proof (cell_width_pos (grid_size cfg) (x_subdivisions cfg) Hpos Hx) as Hpx.
    pose proof (cell_width_pos (grid_size cfg) (y_subdivisions cfg) Hpos Hy) as Hpy.
    fold (cell_width_x cfg) in Hpx. fold (cell_width_y cfg) in Hpy.
    apply Forall2_flip in HL. clear -HL Hpx Hpy Hf.
    induction HL as [|b ij bs ijs Hb _ IH]; constructor; [|exact IH].
    destruct Hb as (_ & Hdx & Hdy). rewrite Hdx, Hdy.
    unfold building_size_x, building_size_y.
    split; apply Rabs_def1; nra.
Qed.

(** With an extent that is not positive the host's grid has size 0: every
    vertex, and so every building, is at the origin. *)
Lemma city_buildings_collapsed (cfg : config) (env : host_env) (w : world) :
  grid_size cfg <= 0 ->
  Forall
    (fun b =>
       vx (location b) = 0 /\ vy (location b) = 0 /\
       vx (dimensions b) = Rabs (building_size_x cfg) /\
       vy (dimensions b) = Rabs (building_size_y cfg))
    (city_buildings cfg env w).
Proof.
  intros Hg. unfold city_buildings.
  pose proof (buildings_built_on cfg env (fst (create_terrain cfg "Terrain" w))
                (snd (create_terrain cfg "Terrain" w))) as Hb.
  destruct (create_terrain_result cfg "Terrain" w) as (t & Ht & _ & _ & Hd & Hloc).
  rewrite Ht in *.
  assert (Hsites : Forall (fun s => vx s = 0 /\ vy s = 0) (building_sites cfg (Some t))).
  { unfold building_sites. rewrite Hd. destruct (_ || _); [constructor|].
    cbn [vertices]. unfold host_grid. rewrite (Rmax_left 0 (grid_size cfg)) by exact Hg.
    rewrite grid_vertices_by_index, !map_map.
    apply Forall_map, Forall_forall. intros [i j] _.
    unfold Host.matrix_world_apply, vec3_add, displace, set_z. rewrite Hloc.
    cbn [vx vy vec3_zero fst snd]. unfold Host.grid_coord, Rdiv. split; ring. }
  revert Hb Hsites.
  generalize (buildings_placed cfg env (Some t) (snd (create_terrain cfg "Terrain" w))).
  generalize (building_sites cfg (Some t)).
  intros sites bs Hb Hsites.
  induction Hb as [|s b sites bs (h & Hl & Hdim) _ IH]; constructor.
  - apply Forall_inv in Hsites. destruct Hsites as [Sx Sy].
    rewrite Hl, Hdim. cbn [vx vy]. repeat split; assumption.
  - apply IH. now apply Forall_inv_tail in Hsites.
Qed.

(** C4 as the specification words it does not hold for every positive
    street factor nor for every extent.  With a factor of 5/2 on cells 20
    wide the boxes read back 30 wide and stand 20 apart; with an extent of
    -6 the grid collapses to a point and the boxes, 3 wide, stand on one
    another.  In both runs the first two buildings overlap. *)
Lemma wide_buildings_overlap :
  (exists a b rest,
     city_buildings crowded_config constant_env empty_world = a :: b :: rest /\
     footprints_overlap a b) /\
  (exists a b rest,
     city_buildings negative_extent_config constant_env empty_world = a :: b :: rest /\
     footprints_overlap a b).
Proof.
  split.
  - assert (Hx : x_subdivisions crowded_config <> 0%nat) by discriminate.
    assert (Hy : y_subdivisions crowded_config <> 0%nat) by discriminate.
    assert (Hg : 0 <= grid_size crowded_config) by (simpl; lra).
    pose proof (city_buildings_layout crowded_config constant_env empty_world Hx Hy Hg)
      as HL.
    change (grid_indices (x_subdivisions crowded_config) (y_subdivisions crowded_config))
      with [(0, 0); (1, 0); (0, 1); (1, 1)]%nat in HL.
    assert (Sx : Rabs (building_size_x crowded_config) = 30)
      by (unfold building_size_x, cell_width_x; simpl;
          replace (20 / 1 * (1 - 5 / 2)) with (-30) by lra; rewrite Rabs_left; lra).
    assert (Sy : Rabs (building_size_y crowded_config) = 30)
      by (unfold building_size_y, cell_width_y; simpl;
          replace (20 / 1 * (1 - 5 / 2)) with (-30) by lra; rewrite Rabs_left; lra).
    revert HL. generalize (city_buildings crowded_config constant_env empty_world).
    intros l HL.
    inversion HL as [|ij a ijs l1 Ha HL1]; subst.
    inversion HL1 as [|ij' b ijs' l2 Hb HL2]; subst.
    exists a, b, l2. split; [reflexivity|].
    destruct Ha as ((_ & _ & Ax & Ay) & Adx & Ady).
    destruct Hb as ((_ & _ & Bx & By) & Bdx & Bdy).
    unfold footprints_overlap, lo_x, hi_x, lo_y, hi_y.
    rewrite Ax, Ay, Bx, By, Adx, Ady, Bdx, Bdy, Sx, Sy.
    unfold cell_width_x, cell_width_y. simpl. repeat split; lra.
  - assert (Hg : grid_size negative_extent_config <= 0) by (simpl; lra).
    pose proof (city_buildings_collapsed negative_extent_config constant_env empty_world Hg)
      as HC.
    pose proof (city_sites_count negative_extent_config constant_env empty_world) as Hn.
    change (sites_count negative_extent_config) with 4%nat in Hn.
    assert (Sx : Rabs (building_size_x negative_extent_config) = 3)
      by (unfold building_size_x, cell_width_x; simpl;
          replace (-6 / 1 * (1 - 1 / 2)) with (-3) by lra; rewrite Rabs_left; lra).
    assert (Sy : Rabs (building_size_y negative_extent_config) = 3)
      by (unfold building_size_y, cell_width_y; simpl;
          replace (-6 / 1 * (1 - 1 / 2)) with (-3) by lra; rewrite Rabs_left; lra).
    revert HC Hn.
    generalize (city_buildings negative_extent_config constant_env empty_world).
    intros l HC Hn.
    destruct l as [|a [|b rest]]; try discriminate Hn.
    exists a, b, rest. split; [reflexivity|].
    apply Forall_inv in HC as Ha. apply Forall_inv_tail in HC.
    apply Forall_inv in HC as Hb.
    destruct Ha as (Ax & Ay & Adx & Ady). destruct Hb as (Bx & By & Bdx & Bdy).
    unfold footprints_overlap, lo_x, hi_x, lo_y, hi_y.
    rewrite Ax, Ay, Bx, By, Adx, Ady, Bdx, Bdy, Sx, Sy. repeat split; lra.
Qed.

Lemma city_buildings_count (cfg : config) (env : host_env) (w : world) :
  x_subdivisions cfg <> 0%nat -> y_subdivisions cfg <> 0%nat -> 0 <= grid_size cfg ->
  List.length (city_buildings cfg env w) =
  (S (y_subdivisions cfg) * S (x_subdivisions cfg))%nat.
Proof.
  intros Hx Hy Hg.
  rewrite <- (Forall2_length (city_buildings_layout cfg env w Hx Hy Hg)).
  rewrite <- (grid_vertices_length (x_subdivisions cfg) (y_subdivisions cfg) 0).
  rewrite grid_vertices_by_index. now rewrite length_map.
Qed.

Lemma buildings_do_not_overlap_witness :
  0 <= grid_size default_config /\
  0 < street_width_factor default_config /\
  List.length (city_buildings default_config constant_env empty_world) = 651%nat /\
  ForallOrdPairs (fun a b => ~ footprints_overlap a b)
    (city_buildings default_config constant_env empty_world).
Proof.
  assert (Hg : 0 <= grid_size default_config) by (simpl; lra).
  assert (Hf : 0 < street_width_factor default_config < 2) by (simpl; lra).
  split; [exact Hg|]. split; [apply Hf|].
  split.
  - rewrite city_buildings_count; [reflexivity | discriminate | discriminate | exact Hg].
  - apply (buildings_do_not_overlap default_config constant_env empty_world Hg Hf).
Defined.

(** ** The zero-subdivision guard *)

Lemma zero_guard (cfg : config) :
  x_subdivisions cfg = 0%nat \/ y_subdivisions cfg = 0%nat ->
  Nat.eqb (x_subdivisions cfg) 0 || Nat.eqb (y_subdivisions cfg) 0 = true.
Proof. intros [-> | ->]; [reflexivity | apply orb_true_r]. Qed.

Lemma create_buildings_zero_guard (cfg : config) (env : host_env)
    (t : object) (m : mesh) (w : world) :
  ob_data t = MeshData m ->
  x_subdivisions cfg = 0%nat \/ y_subdivisions cfg = 0%nat ->
  create_buildings cfg env (Some t) w = (print err_zero_subdivisions w, Completed).
Proof.
  intros Hd H0. unfold create_buildings. rewrite Hd, (zero_guard cfg H0). reflexivity.
Qed.

(** C10.  On the zero-subdivision path [create_buildings] only prints its
    error: the world it returns is the one it was given with that line added
    to the console, so no object is added and no collection is created or
    linked to the scene. *)
Theorem zero_subdivisions_leave_scene_unchanged (cfg : config) (env : host_env)
    (t : object) (m : mesh) (w : world) :
  ob_data t = MeshData m ->
  x_subdivisions cfg = 0%nat \/ y_subdivisions cfg = 0%nat ->
  create_buildings cfg env (Some t) w = (print err_zero_subdivisions w, Completed) /\
  objects (fst (create_buildings cfg env (Some t) w)) = objects w /\
  collections (fst (create_buildings cfg env (Some t) w)) = collections w /\
  scene_children (fst (create_buildings cfg env (Some t) w)) = scene_children w /\
  buildings_placed cfg env (Some t) w = [].
Proof.
  intros Hd H0.
  pose proof (create_buildings_zero_guard cfg env t m w Hd H0) as E.
  unfold buildings_placed. rewrite E. cbn [fst print objects collections scene_children].
  repeat split. apply skipn_all.
Qed.

Lemma zero_subdivisions_leave_scene_unchanged_witness :
  create_buildings no_columns_config constant_env (Some flat_square) one_collection_world
  = (print err_zero_subdivisions one_collection_world, Completed).
Proof.
  apply (zero_subdivisions_leave_scene_unchanged no_columns_config constant_env
           flat_square (Mesh [vec3_zero] []) one_collection_world).
  - reflexivity.
  - left. reflexivity.
Defined.

(** C3.  With a subdivision count of 0, [create_buildings] ends after
    printing its error and adds no building, and the terrain
    [create_terrain] made before is still in the scene, a mesh with its
    vertices. *)
Theorem zero_subdivisions_no_buildings (cfg : config) (env : host_env) (w : world) :
  x_subdivisions cfg = 0%nat \/ y_subdivisions cfg = 0%nat ->
  let terrain_obj := fst (create_terrain cfg "Terrain" w) in
  let w1 := snd (create_terrain cfg "Terrain" w) in
  let w2 := fst (create_buildings cfg env terrain_obj w1) in
  snd (create_buildings cfg env terrain_obj w1) = Completed /\
  console w2 = console w1 ++ [err_zero_subdivisions] /\
  city_buildings cfg env w = [] /\
  objects w2 = objects w1 /\
  exists t,
    terrain_obj = Some t /\ In t (objects w2) /\ ob_type t = MESH /\
    List.length (terrain_vertices terrain_obj) =
      (S (Nat.max 1 (y_subdivisions cfg)) * S (Nat.max 1 (x_subdivisions cfg)))%nat.
Proof.
  intros H0. cbv zeta.
  pose proof (create_terrain_vertex_count cfg "Terrain" w) as Hcount.
  pose proof (city_buildings_none cfg env w H0) as Hnone.
  destruct (create_terrain_result cfg "Terrain" w) as (t & Ht & Hobj & _ & Hd & _).
  destruct (create_terrain cfg "Terrain" w) as [topt W].
  cbn [fst snd] in Ht, Hobj, Hcount |- *. subst topt.
  rewrite (create_buildings_zero_guard cfg env t _ W Hd H0). cbn [fst snd].
  split; [reflexivity|]. split; [reflexivity|].
  split; [exact Hnone|]. split; [reflexivity|].
  exists t. split; [reflexivity|].
  split; [change (In t (objects W)); rewrite Hobj; apply in_or_app; right; now left|].
  split; [unfold ob_type; now rewrite Hd | exact Hcount].
Qed.

Lemma zero_subdivisions_no_buildings_witness :
  console (fst (create_buildings no_columns_config constant_env
                  (fst (create_terrain no_columns_config "Terrain" empty_world))
                  (snd (create_terrain no_columns_config "Terrain" empty_world))))
  = console (snd (create_terrain no_columns_config "Terrain" empty_world))
    ++ [err_zero_subdivisions].
Proof.
  apply (zero_subdivisions_no_buildings no_columns_config constant_env empty_world).
  left. reflexivity.
Defined.

(** ** Selecting by type and deleting *)

Lemma filter_map_deselect (p : object -> bool) (b : bool) (l : list object) :
  (forall o, p (set_select b o) = p o) ->
  filter p (map (set_select b) l) = map (set_select b) (filter p l).
Proof.
  intros Hp. induction l as [|o l IH]; [reflexivity|].
  cbn [map filter]. rewrite Hp, IH. now destruct (p o).
Qed.

Lemma existsb_ext_all {A : Type} (f g : A -> bool) (l : list A) :
  (forall a, f a = g a) -> existsb f l = existsb g l.
Proof.
  intros H. induction l as [|a l IH]; [reflexivity|].
  cbn [existsb]. now rewrite H, IH.
Qed.

(** Whether an operator reaches an object depends on the world only
    through the collections and the children of the scene. *)
Lemma linked_to_scene_same (w w' : world) :
  scene_children w' = scene_children w -> collections w' = collections w ->
  forall (fuel : nat) (n : string),
  Host.linked_to_scene w' fuel n = Host.linked_to_scene w fuel n.
Proof.
  intros Hs Hc. induction fuel as [|fuel IH]; intros n; cbn [Host.linked_to_scene];
    rewrite Hs; [reflexivity|].
  rewrite Hc. f_equal. apply existsb_ext_all. intros p. now rewrite IH.
Qed.

Lemma in_scene_same (w w' : world) (c : coll_ref) :
  scene_children w' = scene_children w -> collections w' = collections w ->
  Host.in_scene w' c = Host.in_scene w c.
Proof.
  intros Hs Hc. destruct c as [|n]; [reflexivity|].
  cbn [Host.in_scene]. rewrite Hc. now apply linked_to_scene_same.
Qed.

Lemma reachable_same (w w' : world) (o : object) :
  scene_children w' = scene_children w -> collections w' = collections w ->
  Host.reachable w' o = Host.reachable w o.
Proof.
  intros Hs Hc. unfold Host.reachable, Host.in_view_layer. f_equal.
  apply existsb_ext_all. intros c. now apply in_scene_same.
Qed.

Lemma filter_same_reach (w w' : world) (p : object -> bool) (l : list object) :
  scene_children w' = scene_children w -> collections w' = collections w ->
  filter (fun o => negb (Host.reachable w' o && p o)) l =
  filter (fun o => negb (Host.reachable w o && p o)) l.
Proof.
  intros Hs Hc. apply filter_ext. intros o. now rewrite (reachable_same w w' o Hs Hc).
Qed.

Lemma filter_unselected_by (q : object -> bool) (l : list object) :
  filter (fun o => negb (select o)) (map (fun o => set_select (q o) o) l) =
  map (set_select false) (filter (fun o => negb (q o)) l).
Proof.
  induction l as [|o l IH]; [reflexivity|].
  cbn [map filter select set_select]. rewrite IH.
  destruct (q o); reflexivity.
Qed.

Lemma filter_none_selected (l : list object) :
  filter select l = [] -> filter (fun o => negb (select o)) l = l.
Proof.
  induction l as [|o l IH]; [reflexivity|].
  cbn [filter]. destruct (select o); [discriminate|].
  intros H. cbn [negb]. now rewrite IH.
Qed.

(** Selecting a type and deleting the selection removes the objects of the
    type that the operators reach, and only these. *)
Lemma delete_type_objects (w : world) (t : object_type) :
  objects (delete_type_if_selected w t) =
  map (set_select false)
      (filter (fun o => negb (Host.reachable w o && is_type t o)) (objects w)).
Proof.
  unfold delete_type_if_selected.
  rewrite <- (filter_unselected_by (fun o => Host.reachable w o && is_type t o)).
  destruct (Host.selected_objects (Host.select_by_type t w)) eqn:E.
  - unfold Host.selected_objects in E. cbn [Host.select_by_type set_objects objects] in *.
    now rewrite filter_none_selected.
  - reflexivity.
Qed.

Lemma delete_type_links (w : world) (t : object_type) :
  scene_children (delete_type_if_selected w t) = scene_children w /\
  collections (delete_type_if_selected w t) = collections w.
Proof.
  unfold delete_type_if_selected.
  destruct (Host.selected_objects (Host.select_by_type t w)); split; reflexivity.
Qed.



Lemma list_max_filter_le (p : object -> bool) (l : list object) :
  (list_max (map ob_id (filter p l)) <= list_max (map ob_id l))%nat.
Proof.
  induction l as [|o l IH]; [apply Nat.le_refl|].
  cbn [filter]. destruct (p o).
  - change (Nat.max (ob_id o) (list_max (map ob_id (filter p l)))
            <= Nat.max (ob_id o) (list_max (map ob_id l)))%nat. lia.
  - change (list_max (map ob_id (filter p l))
            <= Nat.max (ob_id o) (list_max (map ob_id l)))%nat. lia.
Qed.




(** ** What [setup_scene] does to the objects *)



Ltac last_object_updates H2 Hf :=
  first [ exact H2
        | eapply update_object_last;
          [ last_object_updates H2 Hf | exact Hf | reflexivity ] ].

Lemma create_sun_objects (cfg : config) (w : world) :
  exists L,
    objects (create_sun cfg w) = objects w ++ [L] /\
    ob_id L = Host.fresh_id w /\ ob_type L = LIGHT.
Proof.
  unfold create_sun, Host.objects_new, Host.link_object. cbv beta iota zeta.
  set (w1 := set_lights _ w).
  set (id := Host.fresh_id w1).
  set (o := Object id _ _ _ _ _ _ _ _).
  set (w2 := set_next_id (S id) _).
  assert (H2 : objects w2 = objects w ++ [o]) by reflexivity.
  assert (Hf : fresh id (objects w)) by apply (fresh_id_fresh w).
  eexists. split; [last_object_updates H2 Hf|]. split; reflexivity.
Qed.

Lemma create_camera_objects (cfg : config) (w : world) :
  exists C,
    objects (create_camera cfg w) = objects w ++ [C] /\
    ob_id C = Host.fresh_id w /\ ob_type C = CAMERA.
Proof.
  unfold create_camera, Host.objects_new, Host.link_object. cbv beta iota zeta.
  set (w1 := set_cameras _ w).
  set (id := Host.fresh_id w1).
  set (o := Object id _ _ _ _ _ _ _ _).
  set (w2 := set_next_id (S id) _).
  assert (H2 : objects w2 = objects w ++ [o]) by reflexivity.
  assert (Hf : fresh id (objects w)) by apply (fresh_id_fresh w).
  set (w3 := update_object id (set_users_collection _) w2).
  assert (H3 : objects w3 = objects w ++ [set_users_collection (fun cs => cs ++ [SceneCollection]) o])
    by (unfold w3; last_object_updates H2 Hf).
  set (w4 := set_scene_camera (Some id) w3).
  assert (H4 : objects w4 = objects w ++ [set_users_collection (fun cs => cs ++ [SceneCollection]) o])
    by exact H3.
  eexists. split; [last_object_updates H4 Hf|]. split; reflexivity.
Qed.

Lemma fresh_id_after_new (w' : world) (os : list object) (o : object) (f : nat) :
  objects w' = os ++ [o] -> ob_id o = f -> next_id w' = S f ->
  (list_max (map ob_id os) < f)%nat ->
  Host.fresh_id w' = S f.
Proof.
  intros Ho Hid Hn Hmax. unfold Host.fresh_id.
  rewrite Hn, Ho, map_app, list_max_app. cbn [map]. rewrite Hid.
  change (list_max [f]) with (Nat.max f 0). lia.
Qed.

Lemma list_max_below_fresh (w : world) :
  (list_max (map ob_id (objects w)) < Host.fresh_id w)%nat.
Proof. unfold Host.fresh_id. lia. Qed.

(** The sun [setup_scene] makes (lines 179-185). *)
Definition sun_object (cfg : config) (w : world) : object :=
  Object (Host.fresh_id w) (Host.unique_name (Host.object_names w) "SunLightObj")
    (LightData (Host.unique_name (map light_name (lights w)) "SunLight"))
    (Vec3 (grid_size cfg * (8 / 10)) (- grid_size cfg * (8 / 10)) (grid_size cfg * (12 / 10)))
    (Vec3 (Host.radians 45) (Host.radians 5) (Host.radians (-45)))
    vec3_zero false [SceneCollection] false.

(** The camera it makes next (lines 188-194), in the scene [w] that already
    has the sun. *)
Definition camera_object (cfg : config) (w : world) : object :=
  Object (Host.fresh_id w) (Host.unique_name (Host.object_names w) "SceneCameraObj")
    (CameraData (Host.unique_name (map camera_name (cameras w)) "SceneCamera"))
    (Vec3 (grid_size cfg * (12 / 10)) (- grid_size cfg * (12 / 10)) (grid_size cfg * (9 / 10)))
    (Vec3 (Host.radians 60) 0 (Host.radians (-45)))
    vec3_zero false [SceneCollection] false.

Lemma create_sun_state (cfg : config) (w : world) :
  objects (create_sun cfg w) = objects w ++ [sun_object cfg w] /\
  lights (create_sun cfg w) =
    lights w ++ [Light (Host.unique_name (map light_name (lights w)) "SunLight") 4
                   (Host.radians 5)] /\
  Host.fresh_id (create_sun cfg w) = S (Host.fresh_id w) /\
  cameras (create_sun cfg w) = cameras w /\
  scene_camera (create_sun cfg w) = scene_camera w.
Proof.
  assert (Ho : objects (create_sun cfg w) = objects w ++ [sun_object cfg w]).
  { unfold create_sun, Host.objects_new, Host.link_object. cbv beta iota zeta.
    set (w1 := set_lights _ w).
    set (id := Host.fresh_id w1).
    set (o := Object id _ _ _ _ _ _ _ _).
    set (w2 := set_next_id (S id) _).
    assert (H2 : objects w2 = objects w ++ [o]) by reflexivity.
    assert (Hf : fresh id (objects w)) by apply (fresh_id_fresh w).
    etransitivity; [last_object_updates H2 Hf | reflexivity]. }
  split; [exact Ho|]. split; [reflexivity|].
  split; [|split; reflexivity].
  apply (fresh_id_after_new _ _ _ _ Ho eq_refl); [reflexivity|].
  apply list_max_below_fresh.
Qed.

Lemma create_camera_state (cfg : config) (w : world) :
  objects (create_camera cfg w) = objects w ++ [camera_object cfg w] /\
  cameras (create_camera cfg w) =
    cameras w ++ [Camera (Host.unique_name (map camera_name (cameras w)) "SceneCamera")] /\
  scene_camera (create_camera cfg w) = Some (Host.fresh_id w) /\
  lights (create_camera cfg w) = lights w.
Proof.
  split; [|repeat split].
  unfold create_camera, Host.objects_new, Host.link_object. cbv beta iota zeta.
  set (w1 := set_cameras _ w).
  set (id := Host.fresh_id w1).
  set (o := Object id _ _ _ _ _ _ _ _).
  set (w2 := set_next_id (S id) _).
  assert (H2 : objects w2 = objects w ++ [o]) by reflexivity.
  assert (Hf : fresh id (objects w)) by apply (fresh_id_fresh w).
  set (w3 := update_object id (set_users_collection _) w2).
  assert (H3 : objects w3 = objects w ++ [set_users_collection (fun cs => cs ++ [SceneCollection]) o])
    by (unfold w3; last_object_updates H2 Hf).
  set (w4 := set_scene_camera (Some id) w3).
  assert (H4 : objects w4 = objects w ++ [set_users_collection (fun cs => cs ++ [SceneCollection]) o])
    by exact H3.
  etransitivity; [last_object_updates H4 Hf | reflexivity].
Qed.





Lemma id_of_link_view (l l' : list object) :
  map link_view l = map link_view l' -> map id_view l = map id_view l'.
Proof.
  intros H.
  apply (f_equal (map (fun v : nat * string * object_type * bool * list coll_ref =>
                         fst (fst v)))) in H.
  now rewrite !map_map in H.
Qed.






(** ** What [clear_scene] does to the objects *)

(** Making the scene collection the active one changes nothing else. *)
Lemma sync_objects (w : world) : objects (Host.sync_active_collection w) = objects w.
Proof. unfold Host.sync_active_collection. now destruct (Host.in_scene _ _). Qed.

Lemma sync_collections (w : world) :
  collections (Host.sync_active_collection w) = collections w.
Proof. unfold Host.sync_active_collection. now destruct (Host.in_scene _ _). Qed.

Lemma sync_scene_children (w : world) :
  scene_children (Host.sync_active_collection w) = scene_children w.
Proof. unfold Host.sync_active_collection. now destruct (Host.in_scene _ _). Qed.


Lemma unlink_objects (n : string) (w : world) :
  objects (Host.scene_children_unlink n w) = objects w.
Proof. unfold Host.scene_children_unlink. now rewrite sync_objects. Qed.

Lemma unlink_collections (n : string) (w : world) :
  collections (Host.scene_children_unlink n w) = collections w.
Proof. unfold Host.scene_children_unlink. now rewrite sync_collections. Qed.

Lemma unlink_scene_children (n : string) (w : world) :
  scene_children (Host.scene_children_unlink n w) = Host.drop_name n (scene_children w).
Proof. unfold Host.scene_children_unlink. now rewrite sync_scene_children. Qed.



Lemma remove_collections (n : string) (w : world) :
  collections (Host.collections_remove n w) =
  map (fun c => Collection (coll_name c) (Host.drop_name n (coll_children c))
                  (coll_other_users c))
      (filter (fun c => negb (String.eqb (coll_name c) n)) (collections w)).
Proof. unfold Host.collections_remove. now rewrite sync_collections. Qed.

Lemma remove_scene_children (n : string) (w : world) :
  scene_children (Host.collections_remove n w) = Host.drop_name n (scene_children w).
Proof. unfold Host.collections_remove. now rewrite sync_scene_children. Qed.




Definition after_mesh_delete (w : world) : world :=
  delete_type_if_selected
    (Host.select_all_deselect
       match active_object w, mode w with
       | Some _, OBJECT => w
       | Some _, _ => Host.mode_set OBJECT w
       | None, _ => w
       end)
    MESH.

Lemma clear_scene_unfold (w : world) :
  clear_scene w =
  fold_left (fun wi n => Host.collections_remove n wi)
    (snd (fold_left clear_collection_step (collections (after_mesh_delete w))
            (after_mesh_delete w, [])))
    (fst (fold_left clear_collection_step (collections (after_mesh_delete w))
            (after_mesh_delete w, []))).
Proof.
  unfold clear_scene. cbv zeta. fold (after_mesh_delete w).
  change (match Host.selected_objects (Host.select_by_type MESH (Host.select_all_deselect
            match active_object w, mode w with
            | Some _, OBJECT => w
            | Some _, _ => Host.mode_set OBJECT w
            | None, _ => w
            end)) with
          | [] => _
          | _ :: _ => _
          end) with (after_mesh_delete w).
  now destruct (fold_left clear_collection_step _ _).
Qed.

Lemma after_mesh_delete_links (w : world) :
  scene_children (after_mesh_delete w) = scene_children w /\
  collections (after_mesh_delete w) = collections w.
Proof.
  unfold after_mesh_delete.
  destruct (delete_type_links
              (Host.select_all_deselect
                 match active_object w, mode w with
                 | Some _, OBJECT => w
                 | Some _, _ => Host.mode_set OBJECT w
                 | None, _ => w
                 end) MESH) as [Hs Hc].
  rewrite Hs, Hc. destruct (active_object w); [destruct (mode w)|]; split; reflexivity.
Qed.

Lemma after_mesh_delete_objects (w : world) :
  objects (after_mesh_delete w) =
  map (set_select false)
      (filter (fun o => negb (Host.reachable w o && is_type MESH o)) (objects w)).
Proof.
  unfold after_mesh_delete. rewrite delete_type_objects.
  set (w0 := Host.select_all_deselect _).
  assert (H : objects w0 = map (set_select false) (objects w))
    by (unfold w0; destruct (active_object w); [destruct (mode w)|]; reflexivity).
  assert (Hs : scene_children w0 = scene_children w)
    by (unfold w0; destruct (active_object w); [destruct (mode w)|]; reflexivity).
  assert (Hc : collections w0 = collections w)
    by (unfold w0; destruct (active_object w); [destruct (mode w)|]; reflexivity).
  rewrite (filter_same_reach w w0 (is_type MESH) _ Hs Hc), H.
  rewrite (filter_map_deselect (fun o => negb (Host.reachable w o && is_type MESH o)))
    by reflexivity.
  apply map_deselect_idem.
Qed.









(** ** The whole script *)








(** ** Materials *)

Lemma delete_type_materials (w : world) (t : object_type) :
  materials (delete_type_if_selected w t) = materials w.
Proof.
  unfold delete_type_if_selected.
  destruct (Host.selected_objects (Host.select_by_type t w)); reflexivity.
Qed.

Lemma clear_lights_and_cameras_materials (w : world) :
  materials (clear_lights_and_cameras w) = materials w.
Proof.
  unfold clear_lights_and_cameras.
  destruct (filter _ (objects (Host.select_all_deselect w))); [reflexivity|].
  cbn [fold_left]. cbn [Host.select_all_deselect set_objects materials].
  now rewrite !delete_type_materials.
Qed.

Lemma dressing_objects_materials (cfg : config) (env : host_env) (w : world) :
  materials (configure_render env (create_camera cfg (create_sun cfg w))) = materials w.
Proof. unfold configure_render. destruct (gpu env); reflexivity. Qed.


Lemma unique_name_unused (used : list string) (base : string) :
  Host.mem_string base used = false -> Host.unique_name used base = base.
Proof. intros H. unfold Host.unique_name. now rewrite H. Qed.

Lemma material_names_eq (w : world) :
  Host.material_names w = map mat_name (materials w).
Proof. reflexivity. Qed.

Lemma mem_string_app (s : string) (l l' : list string) :
  Host.mem_string s (l ++ l') = Host.mem_string s l || Host.mem_string s l'.
Proof. apply existsb_app. Qed.



Lemma assign_terrain_material_materials (mat : string) (w : world) :
  materials (fst (assign_terrain_material mat w)) = materials w.
Proof.
  unfold assign_terrain_material.
  destruct (find _ (objects w)) as [terrain|]; [|reflexivity].
  destruct (has_materials terrain); reflexivity.
Qed.

Lemma assign_building_materials_materials (mat : string) (w : world) :
  materials (assign_building_materials mat w) = materials w.
Proof.
  unfold assign_building_materials. destruct (Host.mem_string _ _); reflexivity.
Qed.



(** ** Identities only grow *)

















(** * Further properties of the script *)

(** ** [create_terrain] *)

Lemma product_in_unit (a b : R) : -1 <= a <= 1 -> -1 <= b <= 1 -> -1 <= a * b <= 1.
Proof. intros Ha Hb. split; nra. Qed.

Lemma terrain_z_bounded (cfg : config) (co : vec3) :
  Rabs (terrain_z cfg co) <= Rabs (terrain_height_scale cfg).
Proof.
  unfold terrain_z. cbv zeta.
  set (ox := vx co * terrain_wave_frequency cfg).
  set (oy := vy co * terrain_wave_frequency cfg).
  pose proof (product_in_unit _ _ (SIN_bound ox) (COS_bound oy)) as H1.
  pose proof (product_in_unit _ _ (SIN_bound (ox * (1 / 2) + 1))
                (COS_bound (oy * (1 / 2)))) as H2.
  set (p := sin ox * cos oy) in *. set (q := sin (ox * (1 / 2) + 1) * cos (oy * (1 / 2))) in *.
  replace ((p + q) * terrain_height_scale cfg / 2)
    with ((p + q) / 2 * terrain_height_scale cfg) by field.
  rewrite Rabs_mult.
  assert (Hh : Rabs ((p + q) / 2) <= 1) by (apply Rabs_le; lra).
  pose proof (Rabs_pos (terrain_height_scale cfg)). nra.
Qed.

(** The terrain never rises above the height scale nor sinks below its
    opposite. *)
Theorem terrain_heights_within_scale (cfg : config) (name : string) (w : world) :
  Forall (fun v => Rabs (vz v) <= Rabs (terrain_height_scale cfg))
    (terrain_vertices (fst (create_terrain cfg name w))).
Proof.
  rewrite create_terrain_vertices. apply Forall_forall. intros v Hv.
  apply in_map_iff in Hv. destruct Hv as [p [<- _]].
  unfold displace, set_z. cbn [vz]. apply terrain_z_bounded.
Qed.

Lemma filter_others_fresh (id : nat) (os : list object) (o : object) :
  fresh id os -> ob_id o = id ->
  filter (fun o' => negb (Nat.eqb (ob_id o') id)) (os ++ [o]) = os.
Proof.
  intros Hf Hid. rewrite filter_app. cbn [filter]. rewrite Hid, Nat.eqb_refl.
  cbn [negb]. rewrite app_nil_r.
  induction Hf as [|o' os Ho' _ IH]; [reflexivity|].
  cbn [filter]. apply Nat.eqb_neq in Ho'. rewrite Ho'. cbn [negb]. now rewrite IH.
Qed.

Lemma names_deselect (os : list object) :
  map ob_name (map (set_select false) os) = map ob_name os.
Proof. rewrite map_map. apply map_ext. reflexivity. Qed.

(** The terrain in full: a new object under the requested name (with a
    suffix only when another object has that name), at the origin, linked
    to the collection that is active when the call is made, its dimensions
    the bounding box of the displaced grid; it is left as the active object
    and the only selected one, in object mode, and the earlier objects
    stay. *)
Theorem create_terrain_state (cfg : config) (name : string) (w : world) :
  let t :=
    Object (Host.fresh_id w) (Host.unique_name (Host.object_names w) name)
      (MeshData (Mesh (map (displace cfg) (host_grid cfg)) []))
      vec3_zero vec3_zero (Host.bounding_box (map (displace cfg) (host_grid cfg)))
      true [active_collection w] false in
  fst (create_terrain cfg name w) = Some t /\
  objects (snd (create_terrain cfg name w)) = map (set_select false) (objects w) ++ [t] /\
  active_object (snd (create_terrain cfg name w)) = Some (ob_id t) /\
  mode (snd (create_terrain cfg name w)) = OBJECT /\
  Host.selected_objects (snd (create_terrain cfg name w)) = [t].
Proof.
  cbv zeta.
  unfold create_terrain, Host.primitive_grid_add, Host.primitive_add.
  cbv beta iota zeta.
  set (id := Host.fresh_id w).
  set (o := Object id _ _ _ _ _ _ _ _).
  set (w1 := set_mode OBJECT _).
  assert (H1 : objects w1 = map (set_select false) (objects w) ++ [o]) by reflexivity.
  assert (Hf : fresh id (map (set_select false) (objects w)))
    by (apply fresh_map_select, fresh_id_fresh).
  set (w2 := Host.rename_object id name w1).
  assert (H2 : objects w2 = map (set_select false) (objects w)
                 ++ [set_name (Host.unique_name (Host.object_names w) name) o]).
  { unfold w2, Host.rename_object. rewrite H1.
    rewrite (filter_others_fresh id _ o Hf eq_refl), names_deselect.
    apply (update_object_last id _ w1 _ o H1 Hf eq_refl). }
  assert (Hp2 : Host.mode_set_poll w2 = true) by reflexivity.
  rewrite Hp2.
  set (w3 := Host.mode_set EDIT w2).
  assert (H3 : objects w3 = objects w2) by reflexivity.
  rewrite H2 in H3.
  set (w4 := update_object id (map_vertices (displace cfg)) w3).
  pose proof (update_object_last id (map_vertices (displace cfg)) w3 _ _ H3 Hf eq_refl) as H4.
  fold w4 in H4.
  assert (Hp4 : Host.mode_set_poll w4 = true) by reflexivity.
  rewrite Hp4.
  set (w5 := Host.mode_set OBJECT w4).
  assert (H5 : objects w5 = objects w4) by reflexivity.
  rewrite H4 in H5. cbn [fst snd].
  split; [apply (get_object_last id w5 _ _ H5 Hf); reflexivity|].
  split; [exact H5|].
  split; [reflexivity|]. split; [reflexivity|].
  unfold Host.selected_objects. rewrite H5, filter_app.
  assert (Hnone : forall l, filter select (map (set_select false) l) = []).
  { induction l as [|x l IH]; [reflexivity | exact IH]. }
  rewrite Hnone. reflexivity.
Qed.

(** ** [create_buildings] *)

Lemma place_buildings_rng (cfg : config) (env : host_env) (t : object)
    (coll : string) (vs : list vec3) :
  forall (w : world) (c : nat),
  rng (fst (fold_left (place_building cfg env t coll) vs (w, c))) =
    (rng w + List.length vs)%nat /\
  snd (fold_left (place_building cfg env t coll) vs (w, c)) = (c + List.length vs)%nat.
Proof.
  induction vs as [|v vs IH]; intros w c.
  - cbn [fold_left fst snd List.length]. split; lia.
  - destruct (place_building_step cfg env t coll w c v)
      as (b & w1 & Hstep & _ & _ & _ & _ & _ & _ & Hrng & _).
    cbn [fold_left]. rewrite Hstep.
    destruct (IH w1 (S c)) as [H1 H2]. rewrite H1, H2, Hrng.
    cbn [List.length]. split; lia.
Qed.

(** What a call of [create_buildings] that reaches its loop leaves besides
    the objects: the "Buildings" collection, made and linked to the scene
    only when no collection had that name, and one random sample used per
    vertex. *)
Theorem create_buildings_collection (cfg : config) (env : host_env)
    (t : object) (m : mesh) (w : world) :
  ob_data t = MeshData m ->
  x_subdivisions cfg <> 0%nat -> y_subdivisions cfg <> 0%nat ->
  let w' := fst (create_buildings cfg env (Some t) w) in
  rng w' = (rng w + List.length (vertices m))%nat /\
  console w' = console w /\
  if Host.mem_string "Buildings" (Host.collection_names w)
  then collections w' = collections w /\ scene_children w' = scene_children w
  else collections w' = collections w ++ [Collection "Buildings" [] 0] /\
       scene_children w' = scene_children w ++ ["Buildings"%string].
Proof.
  intros Hd Hx Hy. cbv zeta. unfold create_buildings. rewrite Hd.
  apply Nat.eqb_neq in Hx. apply Nat.eqb_neq in Hy. rewrite Hx, Hy. cbn [orb].
  change buildings_collection_name with "Buildings"%string.
  destruct (Host.mem_string "Buildings" (Host.collection_names w)) eqn:E.
  - cbn [fst].
    destruct (place_buildings_fold cfg env t "Buildings" (vertices m) w 0)
      as (bs & _ & _ & _ & Hc & Hs & _ & _ & _ & Hcon).
    destruct (place_buildings_rng cfg env t "Buildings" (vertices m) w 0) as [Hr _].
    auto.
  - unfold Host.collections_new. cbv beta iota zeta.
    rewrite (unique_name_unused _ _ E). cbn [fst].
    set (w1 := set_scene_children _ _).
    destruct (place_buildings_fold cfg env t "Buildings" (vertices m) w1 0)
      as (bs & _ & _ & _ & Hc & Hs & _ & _ & _ & Hcon).
    destruct (place_buildings_rng cfg env t "Buildings" (vertices m) w1 0) as [Hr _].
    rewrite Hr, Hcon, Hc, Hs. repeat split.
Qed.

Lemma create_buildings_collection_witness :
  rng (fst (create_buildings tiny_config constant_env (Some flat_square) one_collection_world))
  = (rng one_collection_world + 1)%nat.
Proof.
  apply (create_buildings_collection tiny_config constant_env flat_square
           (Mesh [vec3_zero] []) one_collection_world); [reflexivity | | ]; discriminate.
Defined.

Lemma Forall_of_view {A : Type} (p : object -> A) (Q : A -> Prop) (l l' : list object) :
  map p l = map p l' -> Forall (fun o => Q (p o)) l' -> Forall (fun o => Q (p o)) l.
Proof. intros E H. apply Forall_map. rewrite E. now apply Forall_map. Qed.

Lemma create_buildings_added (cfg : config) (env : host_env)
    (terrain_obj : option object) (w : world) :
  exists bs,
    map (set_select false) (objects (fst (create_buildings cfg env terrain_obj w))) =
      map (set_select false) (objects w) ++ bs /\
    Forall (fun b => ob_type b = MESH /\ users_collection b = [Named "Buildings"]) bs.
Proof.
  assert (Hnil : forall w', objects w' = objects w ->
            exists bs,
              map (set_select false) (objects w') = map (set_select false) (objects w) ++ bs /\
              Forall (fun b => ob_type b = MESH /\ users_collection b = [Named "Buildings"]) bs).
  { intros w' Ho. exists []. rewrite Ho, app_nil_r. split; [reflexivity | constructor]. }
  unfold create_buildings.
  destruct terrain_obj as [t|]; [|apply Hnil; reflexivity].
  destruct (ob_data t) as [m| | | | |]; try (apply Hnil; reflexivity).
  destruct (_ || _); [apply Hnil; reflexivity|].
  change buildings_collection_name with "Buildings"%string.
  destruct (Host.mem_string "Buildings" (Host.collection_names w)) eqn:E.
  - cbn [fst].
    destruct (place_buildings_fold cfg env t "Buildings" (vertices m) w 0)
      as (bs & Hbs & _ & Hall & _).
    exists bs. split; assumption.
  - unfold Host.collections_new. cbv beta iota zeta.
    rewrite (unique_name_unused _ _ E). cbn [fst].
    set (w1 := set_scene_children _ _).
    destruct (place_buildings_fold cfg env t "Buildings" (vertices m) w1 0)
      as (bs & Hbs & _ & Hall & _).
    exists bs. split; assumption.
Qed.

(** Every object [create_buildings] adds is a mesh and is linked to the
    "Buildings" collection and to no other; there is one per site. *)
Theorem buildings_only_in_their_collection (cfg : config) (env : host_env)
    (terrain_obj : option object) (w : world) :
  List.length (buildings_placed cfg env terrain_obj w) =
    List.length (building_sites cfg terrain_obj) /\
  Forall (fun b => ob_type b = MESH /\ users_collection b = [Named "Buildings"])
    (buildings_placed cfg env terrain_obj w).
Proof.
  split.
  - symmetry. eapply Forall2_length. apply buildings_built_on.
  - destruct (create_buildings_added cfg env terrain_obj w) as (bs & Hbs & Hall).
    unfold buildings_placed.
    apply (Forall_of_view (fun o => (ob_type o, users_collection o))
             (fun v => fst v = MESH /\ snd v = [Named "Buildings"]) _ bs).
    + apply added_objects_view; [reflexivity | exact Hbs].
    + exact Hall.
Qed.

Lemma planned_centres (cfg : config) (env : host_env) (sites : list vec3) :
  forall (k : nat) (bs : list object),
  map geometry bs = planned cfg env k sites ->
  map (fun b => vz (location b)) bs =
  map (fun sk => building_base_z cfg (vz (fst sk)) + building_height_at cfg env (snd sk) / 2)
      (combine sites (seq k (List.length sites))).
Proof.
  induction sites as [|s sites IH]; intros k [|b bs] H; try discriminate.
  - reflexivity.
  - cbn [map planned] in H. unfold geometry at 1 in H. injection H as Hl _ Hrest.
    cbn [List.length seq combine map fst snd]. rewrite (IH (S k) bs Hrest), Hl.
    reflexivity.
Qed.

(** Whatever the parameters, the centre of each building is at the terrain
    height of its site less the embed depth plus half the height drawn for
    it, and the height read back from it is the magnitude of the height
    drawn; the samples are used in the order of the sites. *)
Theorem building_centres_and_heights (cfg : config) (env : host_env)
    (terrain_obj : option object) (w : world) :
  map (fun b => vz (location b)) (buildings_placed cfg env terrain_obj w) =
    map (fun sk => vz (fst sk) - building_embed_depth cfg
                   + building_height_at cfg env (snd sk) / 2)
        (combine (building_sites cfg terrain_obj)
                 (seq (rng w) (List.length (building_sites cfg terrain_obj)))) /\
  map (fun b => vz (dimensions b)) (buildings_placed cfg env terrain_obj w) =
    map (fun k => Rabs (building_height_at cfg env k))
        (seq (rng w) (List.length (building_sites cfg terrain_obj))).
Proof.
  split.
  - apply (planned_centres cfg env _ _ _ (buildings_placed_geometry cfg env terrain_obj w)).
  - apply (planned_heights cfg env _ _ _ (buildings_placed_geometry cfg env terrain_obj w)).
Qed.

(** With unit samples in [0, 1) and a minimum that is not negative and
    does not exceed the maximum, every building's height lies between the
    two. *)
Theorem building_heights_in_range (cfg : config) (env : host_env)
    (terrain_obj : option object) (w : world) :
  (forall k, 0 <= rnd env k < 1) ->
  0 <= building_min_height cfg <= building_max_height cfg ->
  Forall (fun b => building_min_height cfg <= vz (dimensions b) <= building_max_height cfg)
    (buildings_placed cfg env terrain_obj w).
Proof.
  intros Hrnd Hmm.
  pose proof (planned_heights cfg env (building_sites cfg terrain_obj) (rng w)
                (buildings_placed cfg env terrain_obj w)
                (buildings_placed_geometry cfg env terrain_obj w)) as H.
  apply (Forall_of_view (fun b => vz (dimensions b))
           (fun h => building_min_height cfg <= h <= building_max_height cfg)
           _ (map (fun k => Object 0 "" NoData vec3_zero vec3_zero
                              (Vec3 0 0 (Rabs (building_height_at cfg env k))) false []
                              false)
                  (seq (rng w) (List.length (building_sites cfg terrain_obj))))).
  - rewrite H, map_map. reflexivity.
  - apply Forall_forall. intros o Ho. apply in_map_iff in Ho.
    destruct Ho as (k & <- & _). cbn [dimensions vz].
    rewrite Rabs_pos_eq by (now apply building_height_nonneg).
    unfold building_height_at. specialize (Hrnd k). nra.
Qed.

Lemma building_heights_in_range_witness :
  Forall (fun b => building_min_height default_config <= vz (dimensions b)
                   <= building_max_height default_config)
    (city_buildings default_config constant_env empty_world).
Proof.
  apply (building_heights_in_range default_config constant_env).
  - intros k. cbn [rnd constant_env]. lra.
  - cbn [building_min_height building_max_height default_config]. lra.
Defined.

(** ** [setup_scene] *)

(** What the deleting step of [setup_scene] leaves alone. *)
Definition same_settings (w w' : world) : Prop :=
  render w' = render w /\ console w' = console w /\
  collections w' = collections w /\ scene_children w' = scene_children w /\
  lights w' = lights w /\ cameras w' = cameras w /\ materials w' = materials w.

Lemma delete_type_settings (w : world) (t : object_type) :
  same_settings w (delete_type_if_selected w t).
Proof.
  unfold delete_type_if_selected, same_settings.
  destruct (Host.selected_objects (Host.select_by_type t w)); repeat split.
Qed.

Lemma same_settings_deselect (w : world) :
  same_settings w (Host.select_all_deselect w).
Proof. unfold same_settings. repeat split. Qed.

Lemma same_settings_trans (w1 w2 w3 : world) :
  same_settings w1 w2 -> same_settings w2 w3 -> same_settings w1 w3.
Proof.
  unfold same_settings.
  intros (a1 & a2 & a3 & a4 & a5 & a6 & a7) (b1 & b2 & b3 & b4 & b5 & b6 & b7).
  repeat split; congruence.
Qed.

Lemma clear_lights_and_cameras_settings (w : world) :
  same_settings w (clear_lights_and_cameras w).
Proof.
  unfold clear_lights_and_cameras.
  destruct (filter _ (objects (Host.select_all_deselect w)));
    [apply same_settings_deselect|].
  cbn [fold_left].
  eapply same_settings_trans; [apply same_settings_deselect|].
  eapply same_settings_trans; [apply delete_type_settings|].
  eapply same_settings_trans; [apply delete_type_settings|].
  apply same_settings_deselect.
Qed.

(** The line [setup_scene] prints about the render device. *)
Definition device_message (g : gpu_status) : string :=
  match g with
  | GpuAccepted => "Dispositivo de Cycles establecido en GPU."
  | GpuIgnored => "GPU no establecida efectivamente o no disponible, usando CPU."
  | GpuError e =>
      String.append "No se pudo establecer Cycles en GPU ("
        (String.append e "), usando CPU.")
  end.

Lemma configure_render_result (env : host_env) (w : world) :
  render (configure_render env w) =
    Render "CYCLES" (match gpu env with GpuAccepted => "GPU" | _ => "CPU" end) 128
      (if has_adaptive_min_samples env then Some 64%nat
       else adaptive_min_samples (render w)) true /\
  console (configure_render env w) = console w ++ [device_message (gpu env)].
Proof. unfold configure_render. destruct (gpu env); split; reflexivity. Qed.

Lemma materials_steps_render (w : world) :
  forall mat,
  (render (snd (terrain_material w)) = render w /\
   console (snd (terrain_material w)) = console w) /\
  (render (snd (building_material w)) = render w /\
   console (snd (building_material w)) = console w) /\
  (render (fst (assign_terrain_material mat w)) = render w /\
   console (fst (assign_terrain_material mat w)) = console w) /\
  (render (assign_building_materials mat w) = render w /\
   console (assign_building_materials mat w) = console w).
Proof.
  intros mat. repeat split.
  - unfold terrain_material. destruct (Host.mem_string _ _); reflexivity.
  - unfold terrain_material. destruct (Host.mem_string _ _); reflexivity.
  - unfold building_material. destruct (Host.mem_string _ _); reflexivity.
  - unfold building_material. destruct (Host.mem_string _ _); reflexivity.
  - unfold assign_terrain_material. destruct (find _ _) as [o|]; [|reflexivity].
    destruct (has_materials o); reflexivity.
  - unfold assign_terrain_material. destruct (find _ _) as [o|]; [|reflexivity].
    destruct (has_materials o); reflexivity.
  - unfold assign_building_materials. destruct (Host.mem_string _ _); reflexivity.
  - unfold assign_building_materials. destruct (Host.mem_string _ _); reflexivity.
Qed.

(** Whatever the host answers about the GPU, [setup_scene] leaves Cycles
    as the engine with 128 samples and denoising on; the device is the GPU
    only when the host accepted it and the CPU otherwise, and one line on the
    console says which.  This holds even when the call ends in an error
    later on. *)
Theorem setup_scene_render (cfg : config) (env : host_env) (w : world) :
  render (fst (setup_scene cfg env w)) =
    Render "CYCLES" (match gpu env with GpuAccepted => "GPU" | _ => "CPU" end) 128
      (if has_adaptive_min_samples env then Some 64%nat
       else adaptive_min_samples (render w)) true /\
  console (fst (setup_scene cfg env w)) = console w ++ [device_message (gpu env)].
Proof.
  destruct (clear_lights_and_cameras_settings w) as (Hr & Hc & _).
  destruct (configure_render_result env
              (create_camera cfg (create_sun cfg (clear_lights_and_cameras w))))
    as [R C].
  change (render (create_camera cfg (create_sun cfg (clear_lights_and_cameras w))))
    with (render (clear_lights_and_cameras w)) in R.
  change (console (create_camera cfg (create_sun cfg (clear_lights_and_cameras w))))
    with (console (clear_lights_and_cameras w)) in C.
  rewrite Hr in R. rewrite Hc in C.
  unfold setup_scene. cbv zeta.
  set (w4 := configure_render env _) in *.
  destruct (materials_steps_render w4 ""%string) as ((T1 & T2) & _).
  destruct (terrain_material w4) as [terrain_mat w5]. cbn [snd] in T1, T2.
  destruct (materials_steps_render w5 terrain_mat) as (_ & _ & (A1 & A2) & _).
  destruct (assign_terrain_material terrain_mat w5) as [w6 st]. cbn [fst] in A1, A2.
  destruct st; cbn [fst].
  - destruct (materials_steps_render w6 ""%string) as (_ & (B1 & B2) & _).
    destruct (building_material w6) as [building_mat w7]. cbn [fst snd] in *.
    destruct (materials_steps_render w7 building_mat) as (_ & _ & _ & (D1 & D2)).
    rewrite D1, D2, B1, B2, A1, A2, T1, T2. split; assumption.
  - rewrite A1, A2, T1, T2. split; assumption.
Qed.

Lemma map_update_unused (n : string) (f : material -> material) (ms : list material) :
  Host.mem_string n (map mat_name ms) = false ->
  map (fun m => if String.eqb (mat_name m) n then f m else m) ms = ms.
Proof.
  induction ms as [|m ms IH]; [reflexivity|].
  cbn [map Host.mem_string existsb]. intros H.
  apply orb_false_elim in H. destruct H as [H1 H2].
  rewrite String.eqb_sym, H1. f_equal. now apply IH.
Qed.

Lemma update_material_new (n : string) (f : material -> material) (w : world)
    (ms : list material) (m : material) :
  materials w = ms ++ [m] -> Host.mem_string n (map mat_name ms) = false ->
  mat_name m = n ->
  materials (Host.update_material n f w) = ms ++ [f m].
Proof.
  intros Hw Hn Hm. unfold Host.update_material. cbn [set_materials materials].
  rewrite Hw, map_app, (map_update_unused n f ms Hn). cbn [map].
  now rewrite Hm, String.eqb_refl.
Qed.

(** The materials [setup_scene] makes when they are absent. *)
Definition new_terrain_material : material :=
  Material "TerrainMaterial" true
    (Some (Principled (15 / 100, 2 / 10, 1 / 10, 1) (9 / 10) 0)).

Definition new_building_material : material :=
  Material "BuildingMaterial" true
    (Some (Principled (7 / 10, 7 / 10, 72 / 100, 1) (7 / 10) 0)).

Lemma terrain_material_exact (w : world) :
  fst (terrain_material w) = "TerrainMaterial"%string /\
  materials (snd (terrain_material w)) =
    materials w ++
    (if Host.mem_string "TerrainMaterial" (Host.material_names w) then []
     else [new_terrain_material]).
Proof.
  unfold terrain_material.
  destruct (Host.mem_string "TerrainMaterial" (Host.material_names w)) eqn:E.
  - cbn [fst snd]. now rewrite app_nil_r.
  - unfold Host.materials_new. cbv beta iota zeta. rewrite (unique_name_unused _ _ E).
    cbn [fst snd]. split; [reflexivity|].
    eapply eq_trans;
      [ eapply update_material_new;
        [ eapply update_material_new; [reflexivity | exact E | reflexivity]
        | exact E | reflexivity ]
      | reflexivity ].
Qed.

Lemma building_material_exact (w : world) :
  fst (building_material w) = "BuildingMaterial"%string /\
  materials (snd (building_material w)) =
    materials w ++
    (if Host.mem_string "BuildingMaterial" (Host.material_names w) then []
     else [new_building_material]).
Proof.
  unfold building_material.
  destruct (Host.mem_string "BuildingMaterial" (Host.material_names w)) eqn:E.
  - cbn [fst snd]. now rewrite app_nil_r.
  - unfold Host.materials_new. cbv beta iota zeta. rewrite (unique_name_unused _ _ E).
    cbn [fst snd]. split; [reflexivity|].
    eapply eq_trans;
      [ eapply update_material_new;
        [ eapply update_material_new; [reflexivity | exact E | reflexivity]
        | exact E | reflexivity ]
      | reflexivity ].
Qed.

(** [setup_scene] never changes or removes a material that exists: it only
    appends, with their settings, those of its two materials whose names are
    not in use (the second one only when the call does not end in an error
    before). *)
Theorem setup_scene_appends_materials (cfg : config) (env : host_env) (w : world) :
  materials (fst (setup_scene cfg env w)) =
    materials w
    ++ (if Host.mem_string "TerrainMaterial" (Host.material_names w) then []
        else [new_terrain_material])
    ++ match snd (setup_scene cfg env w) with
       | Completed =>
           if Host.mem_string "BuildingMaterial" (Host.material_names w) then []
           else [new_building_material]
       | AttributeError => []
       end.
Proof.
  unfold setup_scene. cbv zeta.
  set (w4 := configure_render env _).
  assert (H4 : materials w4 = materials w).
  { unfold w4. now rewrite dressing_objects_materials, clear_lights_and_cameras_materials. }
  destruct (terrain_material_exact w4) as [Tn Tm].
  rewrite (material_names_eq w4), H4, <- material_names_eq in Tm.
  destruct (terrain_material w4) as [terrain_mat w5]. cbn [fst snd] in Tn, Tm.
  pose proof (assign_terrain_material_materials terrain_mat w5) as H6.
  destruct (assign_terrain_material terrain_mat w5) as [w6 st]. cbn [fst] in H6.
  destruct st; cbn [fst snd].
  - destruct (building_material_exact w6) as [Bn Bm].
    rewrite (material_names_eq w6), H6, Tm in Bm.
    destruct (building_material w6) as [building_mat w7]. cbn [fst snd] in Bn, Bm |- *.
    rewrite assign_building_materials_materials, Bm, <- app_assoc. f_equal. f_equal.
    rewrite map_app, mem_string_app, <- material_names_eq.
    destruct (Host.mem_string "TerrainMaterial" (Host.material_names w));
      cbn; now rewrite ?orb_false_r.
  - rewrite H6, Tm, app_nil_r. reflexivity.
Qed.

Lemma assign_non_mesh (mat : string) (o : object) :
  has_materials o = false -> assign_object_material mat o = o.
Proof.
  unfold assign_object_material, has_materials.
  destruct (ob_data o) as [m| | | |[slots|]|]; congruence.
Qed.

Lemma in_map_fixed {A : Type} (f : A -> A) (a : A) (l : list A) :
  In a l -> f a = a -> In a (map f l).
Proof. intros Hin Hf. rewrite <- Hf. now apply in_map. Qed.

(** A step that keeps the objects without material slots, the scene camera,
    the light and camera data blocks and the collections. *)
Definition keeps_dressing (w w' : world) : Prop :=
  (forall o, In o (objects w) -> has_materials o = false -> In o (objects w')) /\
  scene_camera w' = scene_camera w /\
  lights w' = lights w /\
  cameras w' = cameras w /\
  collections w' = collections w /\
  scene_children w' = scene_children w.

Lemma keeps_dressing_trans (w1 w2 w3 : world) :
  keeps_dressing w1 w2 -> keeps_dressing w2 w3 -> keeps_dressing w1 w3.
Proof.
  unfold keeps_dressing.
  intros (a1 & a2 & a3 & a4 & a5 & a6) (b1 & b2 & b3 & b4 & b5 & b6).
  split; [intros o Ho Hty; apply b1; [apply a1|]; assumption|].
  repeat split; congruence.
Qed.

Lemma keeps_dressing_same_objects (w w' : world) :
  objects w' = objects w -> scene_camera w' = scene_camera w ->
  lights w' = lights w -> cameras w' = cameras w ->
  collections w' = collections w -> scene_children w' = scene_children w ->
  keeps_dressing w w'.
Proof.
  intros Ho H1 H2 H3 H4 H5. unfold keeps_dressing.
  split; [intros o Hin _; now rewrite Ho|]. repeat split; assumption.
Qed.

Lemma configure_render_keeps (env : host_env) (w : world) :
  keeps_dressing w (configure_render env w).
Proof.
  unfold configure_render.
  destruct (gpu env); apply keeps_dressing_same_objects; reflexivity.
Qed.

Lemma terrain_material_keeps (w : world) :
  keeps_dressing w (snd (terrain_material w)).
Proof.
  unfold terrain_material.
  destruct (Host.mem_string _ _); apply keeps_dressing_same_objects; reflexivity.
Qed.

Lemma building_material_keeps (w : world) :
  keeps_dressing w (snd (building_material w)).
Proof.
  unfold building_material.
  destruct (Host.mem_string _ _); apply keeps_dressing_same_objects; reflexivity.
Qed.

Lemma assign_terrain_material_keeps (mat : string) (w : world) :
  keeps_dressing w (fst (assign_terrain_material mat w)).
Proof.
  unfold assign_terrain_material.
  destruct (find _ (objects w)) as [terrain|];
    [|apply keeps_dressing_same_objects; reflexivity].
  destruct (has_materials terrain);
    [|apply keeps_dressing_same_objects; reflexivity].
  unfold keeps_dressing. split; [|repeat split].
  intros o Ho Hty. cbn [fst update_object set_objects objects].
  apply in_map_fixed; [exact Ho|].
  destruct (Nat.eqb _ _); [now apply assign_non_mesh | reflexivity].
Qed.

Lemma assign_building_materials_keeps (mat : string) (w : world) :
  keeps_dressing w (assign_building_materials mat w).
Proof.
  unfold assign_building_materials.
  destruct (Host.mem_string _ _);
    [|apply keeps_dressing_same_objects; reflexivity].
  unfold keeps_dressing. split; [|repeat split].
  intros o Ho Hty. cbn [set_objects objects].
  apply in_map_fixed; [exact Ho|].
  destruct (_ && _); [now apply assign_non_mesh | reflexivity].
Qed.

(** From the rendering step on, [setup_scene] keeps every object without
    material slots as it is, and keeps the scene camera and the light and camera
    data blocks. *)
Lemma setup_scene_tail (cfg : config) (env : host_env) (w : world) :
  keeps_dressing (create_camera cfg (create_sun cfg (clear_lights_and_cameras w)))
    (fst (setup_scene cfg env w)).
Proof.
  unfold setup_scene. cbv zeta.
  generalize (create_camera cfg (create_sun cfg (clear_lights_and_cameras w))).
  intros w3.
  eapply keeps_dressing_trans; [apply (configure_render_keeps env)|].
  generalize (configure_render env w3). intros w4.
  eapply keeps_dressing_trans; [apply terrain_material_keeps|].
  destruct (terrain_material w4) as [terrain_mat w5]. cbn [snd].
  eapply keeps_dressing_trans; [apply (assign_terrain_material_keeps terrain_mat)|].
  destruct (assign_terrain_material terrain_mat w5) as [w6 st]. cbn [fst].
  destruct st; cbn [fst].
  - eapply keeps_dressing_trans; [apply building_material_keeps|].
    destruct (building_material w6) as [building_mat w7]. cbn [fst snd].
    apply assign_building_materials_keeps.
  - apply keeps_dressing_same_objects; reflexivity.
Qed.

(** The sun and the camera of [setup_scene]: where they stand, how they
    are turned, their data blocks, and the camera as the scene's camera.
    Both are linked to the scene collection only. *)
Theorem setup_scene_light_and_camera (cfg : config) (env : host_env) (w : world) :
  let w1 := clear_lights_and_cameras w in
  let w2 := create_sun cfg w1 in
  In (sun_object cfg w1) (objects (fst (setup_scene cfg env w))) /\
  In (camera_object cfg w2) (objects (fst (setup_scene cfg env w))) /\
  ob_id (camera_object cfg w2) = S (ob_id (sun_object cfg w1)) /\
  scene_camera (fst (setup_scene cfg env w)) = Some (ob_id (camera_object cfg w2)) /\
  lights (fst (setup_scene cfg env w)) =
    lights w ++ [Light (Host.unique_name (map light_name (lights w)) "SunLight") 4
                   (Host.radians 5)] /\
  cameras (fst (setup_scene cfg env w)) =
    cameras w ++ [Camera (Host.unique_name (map camera_name (cameras w)) "SceneCamera")].
Proof.
  cbv zeta.
  destruct (setup_scene_tail cfg env w) as (Hin & Hcam & Hl & Hc & _).
  destruct (clear_lights_and_cameras_settings w) as (_ & _ & _ & _ & Sl & Sc & _).
  destruct (create_sun_state cfg (clear_lights_and_cameras w)) as (So & Sli & Sf & Sca & _).
  destruct (create_camera_state cfg (create_sun cfg (clear_lights_and_cameras w)))
    as (Co & Cca & Csc & Cli).
  split; [apply Hin; [rewrite Co, So; apply in_or_app; left; apply in_or_app; right; now left
                     | reflexivity]|].
  split; [apply Hin; [rewrite Co; apply in_or_app; right; now left | reflexivity]|].
  split; [exact Sf|].
  split; [rewrite Hcam; exact Csc|].
  split; [rewrite Hl, Cli, Sli, Sl; reflexivity|].
  rewrite Hc, Cca, Sca, Sc. reflexivity.
Qed.

Lemma assign_material_head (mat : string) (m : mesh) :
  hd_error (mesh_materials (assign_material mat m)) = Some mat.
Proof. unfold assign_material. destruct (mesh_materials m); reflexivity. Qed.

Lemma linked_to_named (n : string) (l : list coll_ref) :
  In (Named n) l -> existsb (coll_ref_eqb (Named n)) l = true.
Proof.
  intros H. apply existsb_exists. exists (Named n). split; [exact H|].
  cbn [coll_ref_eqb]. apply String.eqb_refl.
Qed.

Lemma assign_building_materials_result (mat : string) (w : world) :
  Host.mem_string "Buildings" (Host.collection_names w) = true ->
  Forall
    (fun o => forall m, ob_data o = MeshData m ->
                        In (Named "Buildings") (users_collection o) ->
                        hd_error (mesh_materials m) = Some mat)
    (objects (assign_building_materials mat w)).
Proof.
  intros Hc. unfold assign_building_materials.
  change buildings_collection_name with "Buildings"%string. rewrite Hc.
  cbn [set_objects objects]. apply Forall_map. apply Forall_forall.
  intros o _.
  destruct (existsb (coll_ref_eqb (Named "Buildings")) (users_collection o) && is_type MESH o)
    eqn:E.
  - unfold assign_object_material. destruct (ob_data o) as [m0| | | |[slots|]|] eqn:D;
      cbn [set_data ob_data users_collection];
      try (intros m Hm; first [discriminate Hm | now rewrite D in Hm]).
    intros m Hm _. injection Hm as <-. apply assign_material_head.
  - intros m Hm Hin. apply linked_to_named in Hin.
    unfold is_type, ob_type in E. rewrite Hin, Hm in E. discriminate.
Qed.

Lemma sun_camera_collections (cfg : config) (w : world) :
  collections (create_camera cfg (create_sun cfg w)) = collections w.
Proof. reflexivity. Qed.

(** When [setup_scene] completes in a scene that has a "Buildings"
    collection, every mesh linked to that collection has the building
    material in its first slot. *)
Theorem setup_scene_building_materials (cfg : config) (env : host_env) (w : world) :
  snd (setup_scene cfg env w) = Completed ->
  Host.mem_string "Buildings" (Host.collection_names w) = true ->
  Forall
    (fun o => forall m, ob_data o = MeshData m ->
                        In (Named "Buildings") (users_collection o) ->
                        hd_error (mesh_materials m) = Some "BuildingMaterial"%string)
    (objects (fst (setup_scene cfg env w))).
Proof.
  intros Hdone Hcoll.
  assert (H3 : collections (create_camera cfg (create_sun cfg (clear_lights_and_cameras w)))
               = collections w).
  { rewrite sun_camera_collections.
    now destruct (clear_lights_and_cameras_settings w) as (_ & _ & Hc & _). }
  revert Hdone. unfold setup_scene. cbv zeta.
  revert H3.
  generalize (create_camera cfg (create_sun cfg (clear_lights_and_cameras w))).
  intros w3 H3.
  destruct (configure_render_keeps env w3) as (_ & _ & _ & _ & K4 & _).
  revert K4. generalize (configure_render env w3). intros w4 K4.
  destruct (terrain_material_keeps w4) as (_ & _ & _ & _ & K5 & _).
  destruct (terrain_material w4) as [terrain_mat w5]. cbn [snd] in K5.
  destruct (assign_terrain_material_keeps terrain_mat w5) as (_ & _ & _ & _ & K6 & _).
  destruct (assign_terrain_material terrain_mat w5) as [w6 st]. cbn [fst] in K6.
  destruct st; cbn [fst snd]; [|discriminate]. intros _.
  destruct (building_material_keeps w6) as (_ & _ & _ & _ & K7 & _).
  destruct (building_material_exact w6) as [Bn _].
  destruct (building_material w6) as [building_mat w7]. cbn [fst snd] in K7, Bn |- *.
  subst building_mat. apply assign_building_materials_result.
  unfold Host.collection_names. rewrite K7, K6, K5, K4, H3. exact Hcoll.
Qed.

Lemma setup_scene_building_materials_witness :
  Forall
    (fun o => forall m, ob_data o = MeshData m ->
                        In (Named "Buildings") (users_collection o) ->
                        hd_error (mesh_materials m) = Some "BuildingMaterial"%string)
    (objects (fst (setup_scene tiny_config constant_env first_run))).
Proof.
  apply (setup_scene_building_materials tiny_config constant_env first_run);
    reflexivity.
Defined.

(** ** [clear_scene] and the collections *)


(** No object of the scene is linked to the collection called [n]. *)
Definition unlinked (n : string) (os : list object) : Prop :=
  Forall (fun o => existsb (coll_ref_eqb (Named n)) (users_collection o) = false) os.

Lemma collection_objects_nil (w : world) (n : string) :
  Host.collection_objects w (Named n) = [] <-> unlinked n (objects w).
Proof.
  unfold Host.collection_objects, unlinked.
  induction (objects w) as [|o os IH]; [split; constructor|].
  cbn [filter].
  destruct (existsb (coll_ref_eqb (Named n)) (users_collection o)) eqn:E.
  - split; [intros H; discriminate H|].
    intros H. apply Forall_inv in H. rewrite E in H. discriminate H.
  - rewrite IH. split; [now constructor|]. intros H. now apply Forall_inv_tail in H.
Qed.



(** The collections [clear_scene] decides to remove are all without
    objects. *)
Lemma clear_collection_step_empty (w : world) (acc : list string) (c : collection) :
  Forall (fun n => unlinked n (objects w)) acc ->
  Forall (fun n => unlinked n (objects w)) (snd (clear_collection_step (w, acc) c)).
Proof.
  intros Hacc. unfold clear_collection_step.
  destruct (Host.collection_objects w (Named (coll_name c))) eqn:E; [|exact Hacc].
  apply collection_objects_nil in E.
  cbn [coll_ref_eqb negb].
  destruct (Host.mem_string (coll_name c) (scene_children w));
    destruct (Nat.eqb _ 0); cbn [snd]; try exact Hacc;
    apply Forall_app; (split; [exact Hacc | now constructor]).
Qed.

Lemma clear_collection_step_objects (w : world) (acc : list string) (c : collection) :
  objects (fst (clear_collection_step (w, acc) c)) = objects w.
Proof.
  unfold clear_collection_step.
  destruct (Host.collection_objects w (Named (coll_name c))); [|reflexivity].
  cbn [coll_ref_eqb negb].
  destruct (Host.mem_string (coll_name c) (scene_children w));
    destruct (Nat.eqb _ 0); cbn [fst]; rewrite ?unlink_objects; reflexivity.
Qed.

Lemma clear_collection_steps_empty (cs : list collection) :
  forall (w : world) (acc : list string),
  Forall (fun n => unlinked n (objects w)) acc ->
  Forall (fun n => unlinked n (objects w))
    (snd (fold_left clear_collection_step cs (w, acc))).
Proof.
  induction cs as [|c cs IH]; intros w acc Hacc; [exact Hacc|].
  cbn [fold_left].
  pose proof (clear_collection_step_empty w acc c Hacc) as H1.
  pose proof (clear_collection_step_objects w acc c) as H2.
  destruct (clear_collection_step (w, acc) c) as [w1 acc1]. cbn [fst snd] in H1, H2.
  rewrite <- H2. apply IH. now rewrite H2.
Qed.




Lemma mem_drop_same (n : string) (l : list string) :
  Host.mem_string n (Host.drop_name n l) = false.
Proof.
  induction l as [|m l IH]; [reflexivity|].
  cbn [Host.drop_name filter]. destruct (String.eqb m n) eqn:E; cbn [negb]; [exact IH|].
  cbn [Host.mem_string existsb]. rewrite String.eqb_sym, E. exact IH.
Qed.

Lemma mem_drop_other (n m : string) (l : list string) :
  n <> m -> Host.mem_string n (Host.drop_name m l) = Host.mem_string n l.
Proof.
  intros Hne. induction l as [|x l IH]; [reflexivity|].
  cbn [Host.drop_name filter Host.mem_string existsb].
  destruct (String.eqb x m) eqn:E; cbn [negb].
  - apply String.eqb_eq in E. subst x.
    apply String.eqb_neq in Hne. rewrite Hne. exact IH.
  - cbn [Host.mem_string existsb]. f_equal. exact IH.
Qed.

Lemma drop_name_absent (n : string) (l : list string) :
  Host.mem_string n l = false -> Host.drop_name n l = l.
Proof.
  induction l as [|m l IH]; [reflexivity|].
  cbn [Host.mem_string existsb]. intros H. apply orb_false_elim in H. destruct H as [H1 H2].
  cbn [Host.drop_name filter]. rewrite String.eqb_sym, H1. cbn [negb]. f_equal. now apply IH.
Qed.

Lemma count_occ_absent (n : string) (l : list string) :
  Host.mem_string n l = false -> count_occ string_dec l n = 0%nat.
Proof.
  intros H. apply count_occ_not_In. intros Hin.
  assert (Host.mem_string n l = true); [|congruence].
  apply existsb_exists. exists n. split; [exact Hin | apply String.eqb_refl].
Qed.

Lemma names_after_remove (m : string) (w : world) :
  Host.collection_names (Host.collections_remove m w) =
  Host.drop_name m (Host.collection_names w).
Proof.
  unfold Host.collection_names. rewrite remove_collections. unfold Host.drop_name.
  rewrite map_map. cbn [coll_name].
  induction (collections w) as [|c cs IH]; [reflexivity|].
  cbn [filter map]. destruct (String.eqb (coll_name c) m); cbn [negb map]; now rewrite IH.
Qed.

(** Links from parent collections to [c], and what decides whether an
    empty collection is removed. *)
Definition parent_links (w : world) (c : collection) : nat :=
  list_sum (map (fun p => count_occ string_dec (coll_children p) (coll_name c))
                (collections w)).

Definition removable (w : world) (c : collection) : bool :=
  Nat.eqb (parent_links w c + coll_other_users c) 0.

Lemma clear_collection_step_spec (w : world) (acc : list string) (c : collection) :
  objects (fst (clear_collection_step (w, acc) c)) = objects w /\
  collections (fst (clear_collection_step (w, acc) c)) = collections w /\
  ((~ unlinked (coll_name c) (objects w) /\
    scene_children (fst (clear_collection_step (w, acc) c)) = scene_children w /\
    snd (clear_collection_step (w, acc) c) = acc) \/
   (unlinked (coll_name c) (objects w) /\
    scene_children (fst (clear_collection_step (w, acc) c)) =
      Host.drop_name (coll_name c) (scene_children w) /\
    snd (clear_collection_step (w, acc) c) =
      if removable w c then acc ++ [coll_name c] else acc)).
Proof.
  unfold clear_collection_step.
  destruct (Host.collection_objects w (Named (coll_name c))) eqn:E.
  - apply collection_objects_nil in E. cbn [coll_ref_eqb negb].
    assert (Hu : forall w1, collections w1 = collections w ->
                 Host.mem_string (coll_name c) (scene_children w1) = false ->
                 Nat.eqb (Host.collection_users w1 c) 0 = removable w c).
    { intros w1 Hc Hm. unfold Host.collection_users, removable, parent_links.
      now rewrite (count_occ_absent _ _ Hm), Hc. }
    destruct (Host.mem_string (coll_name c) (scene_children w)) eqn:M.
    + assert (Hm : Host.mem_string (coll_name c)
                     (scene_children (Host.scene_children_unlink (coll_name c) w)) = false)
        by (rewrite unlink_scene_children; apply mem_drop_same).
      rewrite (Hu (Host.scene_children_unlink (coll_name c) w)
                 (unlink_collections _ _) Hm).
      destruct (removable w c); cbn [fst snd];
        rewrite unlink_objects, unlink_collections, unlink_scene_children;
        repeat split; right; repeat split; assumption.
    + rewrite (Hu w eq_refl M).
      destruct (removable w c); cbn [fst snd]; repeat split; right;
        rewrite (drop_name_absent _ _ M); repeat split; assumption.
  - cbn [fst snd]. repeat split. left. repeat split.
    intros Hun. apply collection_objects_nil in Hun. congruence.
Qed.

(** Names dropped from the scene's children and names queued for removal
    by the loop over the collections are names of collections without
    objects; a name with objects is never touched. *)
Lemma clear_collection_steps_keep (n : string) (cs : list collection) :
  forall (w : world) (acc : list string),
  ~ unlinked n (objects w) ->
  Host.mem_string n (scene_children (fst (fold_left clear_collection_step cs (w, acc)))) =
    Host.mem_string n (scene_children w) /\
  collections (fst (fold_left clear_collection_step cs (w, acc))) = collections w.
Proof.
  induction cs as [|c cs IH]; intros w acc Hn; [split; reflexivity|].
  cbn [fold_left].
  destruct (clear_collection_step_spec w acc c) as (Ho & Hc & Hs).
  destruct (clear_collection_step (w, acc) c) as [w1 acc1]. cbn [fst snd] in Ho, Hc, Hs.
  destruct (IH w1 acc1) as [I1 I2]; [now rewrite Ho|].
  rewrite I1, I2, Hc. split; [|reflexivity].
  destruct Hs as [(_ & -> & _) | (Hu & -> & _)]; [reflexivity|].
  apply mem_drop_other. intros ->. contradiction.
Qed.

Lemma collections_remove_all_keep (n : string) (names : list string) :
  forall w : world,
  ~ In n names ->
  Host.mem_string n (Host.collection_names
      (fold_left (fun wi m => Host.collections_remove m wi) names w)) =
    Host.mem_string n (Host.collection_names w) /\
  Host.mem_string n (scene_children
      (fold_left (fun wi m => Host.collections_remove m wi) names w)) =
    Host.mem_string n (scene_children w).
Proof.
  induction names as [|m names IH]; intros w Hn; [split; reflexivity|].
  cbn [fold_left].
  assert (Hne : n <> m) by (intros ->; apply Hn; now left).
  destruct (IH (Host.collections_remove m w)) as [I1 I2];
    [intros H; apply Hn; now right|].
  rewrite I1, I2, names_after_remove, remove_scene_children.
  split; apply mem_drop_other; exact Hne.
Qed.

Lemma linked_not_unlinked (n : string) (o : object) (os : list object) :
  In o os -> In (Named n) (users_collection o) -> ~ unlinked n os.
Proof.
  intros Ho Hl Hun. unfold unlinked in Hun. rewrite Forall_forall in Hun.
  specialize (Hun o Ho). apply linked_to_named in Hl. congruence.
Qed.

Lemma after_mesh_delete_collections (w : world) :
  collections (after_mesh_delete w) = collections w /\
  scene_children (after_mesh_delete w) = scene_children w.
Proof. destruct (after_mesh_delete_links w) as [Hs Hc]. now split. Qed.

(** A collection that holds an object [clear_scene] does not delete stays
    where it is. *)
Lemma clear_scene_keeps_holder (w : world) (n : string) (o : object) :
  In o (objects w) -> Host.reachable w o && is_type MESH o = false ->
  In (Named n) (users_collection o) ->
  Host.mem_string n (Host.collection_names (clear_scene w)) =
    Host.mem_string n (Host.collection_names w) /\
  Host.mem_string n (scene_children (clear_scene w)) =
    Host.mem_string n (scene_children w).
Proof.
  intros Ho Hty Hl.
  assert (Hlinked : ~ unlinked n (objects (after_mesh_delete w))).
  { rewrite after_mesh_delete_objects.
    apply (linked_not_unlinked n (set_select false o)); [|exact Hl].
    apply in_map. apply filter_In. split; [exact Ho|]. now rewrite Hty. }
  rewrite clear_scene_unfold.
  pose proof (clear_collection_steps_empty (collections (after_mesh_delete w))
                (after_mesh_delete w) [] (Forall_nil _)) as Hempty.
  destruct (clear_collection_steps_keep n (collections (after_mesh_delete w))
              (after_mesh_delete w) [] Hlinked) as [K1 K2].
  destruct (after_mesh_delete_collections w) as [A1 A2].
  destruct (collections_remove_all_keep n
              (snd (fold_left clear_collection_step (collections (after_mesh_delete w))
                      (after_mesh_delete w, [])))
              (fst (fold_left clear_collection_step (collections (after_mesh_delete w))
                      (after_mesh_delete w, [])))) as [R1 R2].
  { intros Hin. rewrite Forall_forall in Hempty. apply Hlinked. now apply Hempty. }
  rewrite R1, R2, K1. unfold Host.collection_names. rewrite K2, A1, A2. split; reflexivity.
Qed.

(** [clear_scene] never removes or unlinks a collection that still holds an
    object after the meshes are gone. *)
Theorem clear_scene_keeps_used_collections (w : world) (n : string) (o : object) :
  In o (objects w) -> ob_type o <> MESH -> In (Named n) (users_collection o) ->
  Host.mem_string n (Host.collection_names (clear_scene w)) =
    Host.mem_string n (Host.collection_names w) /\
  Host.mem_string n (scene_children (clear_scene w)) =
    Host.mem_string n (scene_children w).
Proof.
  intros Ho Hty Hl. apply (clear_scene_keeps_holder w n o Ho); [|exact Hl].
  unfold is_type. destruct (ob_type o); try contradiction; cbn [object_type_eqb];
    apply andb_false_r.
Qed.

Lemma clear_scene_keeps_used_collections_witness :
  Host.mem_string "Props" (Host.collection_names (clear_scene props_world)) =
    Host.mem_string "Props" (Host.collection_names props_world) /\
  Host.mem_string "Props" (scene_children (clear_scene props_world)) =
    Host.mem_string "Props" (scene_children props_world).
Proof.
  apply (clear_scene_keeps_used_collections props_world "Props" marker_empty).
  - right. left. reflexivity.
  - discriminate.
  - left. reflexivity.
Defined.












(** ** The run as a whole *)







(** ** Counting meshes *)








(** ** How a run ends *)
















(** ** Running the script twice *)


















